(** * Store monitor: uptime / downtime calculation

    A shallow embedding of [src/store_monitor/calculation.py] and the
    constants of [src/store_monitor/config.py], with the properties the
    design document states about them.

    Modelling conventions.
    - A UTC [datetime] is the integer number of microseconds since the
      epoch (1970-01-01T00:00:00Z, a Thursday).  The code localises every
      naive datetime it receives to UTC before using it, so one integer
      stands for both forms.
    - A local (wall clock) [datetime] is the integer number of
      microseconds between 1970-01-01T00:00:00 local and the wall clock
      reading; [weekday] and [time_of] read the two fields the code uses.
    - A [datetime.time] is the number of microseconds since midnight;
      Python compares [time] objects field by field, which is the order
      of these integers.
    - The float counters [uptime_minutes] and [downtime_minutes] start at
      0.0 and only ever grow by 1, so they hold whole numbers (exact in
      binary64 far beyond any datetime range); they are integers here.
      Quotients by 60.0 are exact rationals.
    - [pytz] and the SQLAlchemy session are outside the repository: the
      zone database and the two queries are parameters. *)

From Stdlib Require Import ZArith QArith Qabs List Lia Bool String.
From stdpp Require Import gmap strings list fin_maps.

Local Open Scope Z_scope.

(** ** Exceptions and results *)

(** [OutOfFuel] is not a Python exception: it marks a run of the model
    that reached its loop bound.  [calculate_never_out_of_fuel] shows that
    the bound the model uses is never reached. *)
Inductive exn : Type :=
| KeyError (key : Z)
| UnknownTimeZoneError (zone : string)
| OutOfFuel.

Inductive result (A : Type) : Type :=
| Ok (a : A)
| Raise (e : exn).

Arguments Ok {A} a.
Arguments Raise {A} e.

Definition bind {A B : Type} (r : result A) (k : A -> result B) : result B :=
  match r with
  | Ok a => k a
  | Raise e => Raise e
  end.

Notation "'let*' x ':=' r 'in' k" := (bind r (fun x => k))
  (at level 10, x name, r at level 100, k at level 200).

(** ** Time *)

Module Time.

Definition us_per_second : Z := 1000000.
Definition us_per_minute : Z := 60 * us_per_second.
Definition us_per_hour : Z := 60 * us_per_minute.
Definition us_per_day : Z := 24 * us_per_hour.

(** [datetime.time(h, m, s, us)] *)
Definition mk_time (h m s us : Z) : Z :=
  h * us_per_hour + m * us_per_minute + s * us_per_second + us.

(** [time.min] is 00:00:00 and [time.max] is 23:59:59.999999. *)
Definition time_min : Z := mk_time 0 0 0 0.
Definition time_max : Z := mk_time 23 59 59 999999.

(** [timedelta(minutes=..)], [timedelta(hours=..)], [timedelta(days=..)] *)
Definition timedelta_minutes (n : Z) : Z := n * us_per_minute.
Definition timedelta_hours (n : Z) : Z := n * us_per_hour.
Definition timedelta_days (n : Z) : Z := n * us_per_day.

(** [local_dt.weekday()]: Monday is 0, Sunday is 6; day 0 is a Thursday. *)
Definition weekday (local_dt : Z) : Z := (local_dt / us_per_day + 3) mod 7.

(** [local_dt.time()] *)
Definition time_of (local_dt : Z) : Z := local_dt mod us_per_day.

(** A wall clock reading from a day number and a time of day. *)
Definition mk_local (day : Z) (t : Z) : Z := day * us_per_day + t.

(** A [tzinfo] gives the UTC offset in force at a UTC instant. *)
Definition tzinfo : Type := Z -> Z.

(** [utc_dt.astimezone(tz)] *)
Definition astimezone (utc_dt : Z) (tz : tzinfo) : Z := utc_dt + tz utc_dt.

End Time.

Import Time.

(** ** config.py *)

Definition DEFAULT_TIMEZONE : string := "America/Chicago".
Definition DEFAULT_STORE_STATUS : string := "inactive".
Definition POLL_FETCH_BUFFER_HOURS : Z := 1.

(** ** models.py *)

Module models.

Definition uuid : Type := N.

Record Store : Type := mkStore {
  id : uuid;
  timezone_str : string
}.

Record StoreStatusPoll : Type := mkPoll {
  timestamp_utc : Z;
  status : string
}.

Record BusinessHour : Type := mkBusinessHour {
  day_of_week : Z;
  start_time_local : Z;
  end_time_local : Z
}.

(** The two queries [generate_report_data_for_store] and
    [get_business_hours_for_store] run on the session:
    the business hour rows of a store, and the polls of a store with
    [lo <= timestamp_utc <= hi] in ascending order of timestamp. *)
Record Session : Type := mkSession {
  query_business_hours : uuid -> list BusinessHour;
  query_polls : uuid -> Z -> Z -> list StoreStatusPoll
}.

End models.

Import models (uuid, Store, StoreStatusPoll, BusinessHour, Session).

(** ** get_business_hours_for_store *)

(** [{day: [] for day in range(7)}] *)
Definition empty_week : gmap Z (list (Z * Z)) :=
  list_to_map (map (fun d => (d, @nil (Z * Z))) [0; 1; 2; 3; 4; 5; 6]).

(** [business_hours_map[day].append(x)]; a missing key raises. *)
Definition append_at (day : Z) (x : Z * Z) (m : gmap Z (list (Z * Z)))
  : result (gmap Z (list (Z * Z))) :=
  match m !! day with
  | Some l => Ok (<[day := l ++ [x]]> m)
  | None => Raise (KeyError day)
  end.

Fixpoint append_all_day (days : list Z) (x : Z * Z) (m : gmap Z (list (Z * Z)))
  : result (gmap Z (list (Z * Z))) :=
  match days with
  | [] => Ok m
  | day :: rest => let* m' := append_at day x m in append_all_day rest x m'
  end.

Fixpoint append_rows (rows : list BusinessHour) (m : gmap Z (list (Z * Z)))
  : result (gmap Z (list (Z * Z))) :=
  match rows with
  | [] => Ok m
  | bh :: rest =>
      let* m' := append_at (models.day_of_week bh)
                   (models.start_time_local bh, models.end_time_local bh) m in
      append_rows rest m'
  end.

Definition get_business_hours_for_store (db : Session) (store_id : uuid)
  : result (gmap Z (list (Z * Z))) :=
  let hours_query := models.query_business_hours db store_id in
  let business_hours_map := empty_week in
  match hours_query with
  | [] => append_all_day [0; 1; 2; 3; 4; 5; 6] (time_min, time_max) business_hours_map
  | _ :: _ => append_rows hours_query business_hours_map
  end.

(** ** is_store_open *)

(** The first loop: the intervals of the local day. *)
Fixpoint open_today (current_time : Z) (intervals : list (Z * Z)) : bool :=
  match intervals with
  | [] => false
  | (start_time, end_time) :: rest =>
      if (start_time =? time_min) && (end_time =? time_max) then true
      else if start_time <=? end_time then
        if (start_time <=? current_time) && (current_time <? end_time) then true
        else open_today current_time rest
      else
        if start_time <=? current_time then true
        else open_today current_time rest
  end.

(** The second loop: the overnight intervals of the previous day. *)
Fixpoint open_from_prev_day (current_time : Z) (intervals : list (Z * Z)) : bool :=
  match intervals with
  | [] => false
  | (start_time, end_time) :: rest =>
      if start_time >? end_time then
        if current_time <? end_time then true
        else open_from_prev_day current_time rest
      else open_from_prev_day current_time rest
  end.

Definition is_store_open (local_dt : Z) (business_hours_map : gmap Z (list (Z * Z)))
  : bool :=
  let day_of_week := weekday local_dt in
  let current_time := time_of local_dt in
  if open_today current_time (default [] (business_hours_map !! day_of_week)) then true
  else
    let prev_day_of_week := (day_of_week - 1 + 7) mod 7 in
    open_from_prev_day current_time
      (default [] (business_hours_map !! prev_day_of_week)).

(** ** get_status_at_time *)

(** The [for poll in polls] loop with its [break]. *)
Fixpoint status_scan (target_utc_dt : Z) (polls : list StoreStatusPoll)
    (last_known_status : string) : string :=
  match polls with
  | [] => last_known_status
  | poll :: rest =>
      if models.timestamp_utc poll <=? target_utc_dt
      then status_scan target_utc_dt rest (models.status poll)
      else last_known_status
  end.

Definition get_status_at_time (target_utc_dt : Z) (polls : list StoreStatusPoll)
  : string :=
  status_scan target_utc_dt polls DEFAULT_STORE_STATUS.

(** The same loop, counting the polls it examines (the comparisons
    [poll_time <= target_utc_dt] it makes). *)
Fixpoint status_scan_cost (target_utc_dt : Z) (polls : list StoreStatusPoll) : nat :=
  match polls with
  | [] => O
  | poll :: rest =>
      if models.timestamp_utc poll <=? target_utc_dt
      then S (status_scan_cost target_utc_dt rest)
      else 1%nat
  end.

(** ** calculate_store_uptime_for_period *)

Section Engine.

(** [pytz.timezone]: [None] stands for [UnknownTimeZoneError]. *)
Variable pytz_timezone : string -> option tzinfo.

(** The [try] / [except pytz.UnknownTimeZoneError] block. *)
Definition resolve_timezone (store_timezone_str : string) : result tzinfo :=
  match pytz_timezone store_timezone_str with
  | Some store_tz => Ok store_tz
  | None =>
      match pytz_timezone DEFAULT_TIMEZONE with
      | Some store_tz => Ok store_tz
      | None => Raise (UnknownTimeZoneError DEFAULT_TIMEZONE)
      end
  end.

(** The body of the [while] loop: the new pair of counters. *)
Definition classify_minute (store_tz : tzinfo)
    (business_hours_map : gmap Z (list (Z * Z))) (polls : list StoreStatusPoll)
    (current_minute_utc : Z) (counters : Z * Z) : Z * Z :=
  let '(uptime_minutes, downtime_minutes) := counters in
  let local_dt := astimezone current_minute_utc store_tz in
  let is_open := is_store_open local_dt business_hours_map in
  if is_open then
    let current_status := get_status_at_time current_minute_utc polls in
    if String.eqb current_status "active"
    then (uptime_minutes + 1, downtime_minutes)
    else (uptime_minutes, downtime_minutes + 1)
  else (uptime_minutes, downtime_minutes).

(** [while current_minute_utc < interval_end_utc: ...] *)
Fixpoint minute_loop (fuel : nat) (store_tz : tzinfo)
    (business_hours_map : gmap Z (list (Z * Z))) (polls : list StoreStatusPoll)
    (current_minute_utc interval_end_utc : Z) (counters : Z * Z)
  : option (Z * Z) :=
  match fuel with
  | O => None
  | S fuel' =>
      if current_minute_utc <? interval_end_utc then
        minute_loop fuel' store_tz business_hours_map polls
          (current_minute_utc + timedelta_minutes 1) interval_end_utc
          (classify_minute store_tz business_hours_map polls
             current_minute_utc counters)
      else Some counters
  end.

(** A bound on the number of times the loop test is evaluated. *)
Definition loop_bound (interval_start_utc interval_end_utc : Z) : nat :=
  S (Z.to_nat ((interval_end_utc - interval_start_utc) / us_per_minute + 1)).

Definition calculate_store_uptime_for_period (store_id : uuid)
    (store_timezone_str : string)
    (business_hours_map : gmap Z (list (Z * Z)))
    (interval_start_utc interval_end_utc : Z)
    (polls : list StoreStatusPoll) : result (Z * Z) :=
  let uptime_minutes := 0 in
  let downtime_minutes := 0 in
  let* store_tz := resolve_timezone store_timezone_str in
  match minute_loop (loop_bound interval_start_utc interval_end_utc)
          store_tz business_hours_map polls
          interval_start_utc interval_end_utc
          (uptime_minutes, downtime_minutes) with
  | Some counters => Ok counters
  | None => Raise OutOfFuel
  end.

(** The loop again, recording what it does: the bucket start instants at
    which the body ran, in order, and the number of polls examined by the
    calls of [get_status_at_time]. *)
Record scan_log : Type := mkLog {
  log_counters : Z * Z;
  log_buckets : list Z;
  log_comparisons : nat
}.

Definition log_minute (store_tz : tzinfo)
    (business_hours_map : gmap Z (list (Z * Z))) (polls : list StoreStatusPoll)
    (current_minute_utc : Z) (l : scan_log) : scan_log :=
  {| log_counters :=
       classify_minute store_tz business_hours_map polls current_minute_utc
         (log_counters l);
     log_buckets := log_buckets l ++ [current_minute_utc];
     log_comparisons :=
       if is_store_open (astimezone current_minute_utc store_tz) business_hours_map
       then (log_comparisons l + status_scan_cost current_minute_utc polls)%nat
       else log_comparisons l |}.

Fixpoint minute_loop_log (fuel : nat) (store_tz : tzinfo)
    (business_hours_map : gmap Z (list (Z * Z))) (polls : list StoreStatusPoll)
    (current_minute_utc interval_end_utc : Z) (l : scan_log)
  : option scan_log :=
  match fuel with
  | O => None
  | S fuel' =>
      if current_minute_utc <? interval_end_utc then
        minute_loop_log fuel' store_tz business_hours_map polls
          (current_minute_utc + timedelta_minutes 1) interval_end_utc
          (log_minute store_tz business_hours_map polls current_minute_utc l)
      else Some l
  end.

Definition scan_window (store_tz : tzinfo)
    (business_hours_map : gmap Z (list (Z * Z)))
    (interval_start_utc interval_end_utc : Z)
    (polls : list StoreStatusPoll) : option scan_log :=
  minute_loop_log (loop_bound interval_start_utc interval_end_utc)
    store_tz business_hours_map polls interval_start_utc interval_end_utc
    {| log_counters := (0, 0); log_buckets := []; log_comparisons := O |}.

(** ** generate_report_data_for_store *)

(** Python's [round(x)]: the nearest integer, ties to the even one. *)
Definition py_round (x : Q) : Z :=
  let n := Qnum x in
  let d := Z.pos (Qden x) in
  let q := n / d in
  let r := n mod d in
  if 2 * r <? d then q
  else if d <? 2 * r then q + 1
  else if Z.even q then q else q + 1.

(** Python's [round(x, ndigits)]: the nearest multiple of [10 ^ -ndigits]. *)
Definition py_round_ndigits (x : Q) (ndigits : positive) : Q :=
  let scale := Pos.pow 10 ndigits in
  Qmake (py_round (x * inject_Z (Z.pos scale))) scale.

Record ReportData : Type := mkReportData {
  store_id : uuid;
  uptime_last_hour : Z;
  uptime_last_day : Q;
  uptime_last_week : Q;
  downtime_last_hour : Z;
  downtime_last_day : Q;
  downtime_last_week : Q
}.

Definition generate_report_data_for_store (db : Session) (store : Store)
    (reference_time_utc : Z) : result ReportData :=
  let store_id := models.id store in
  let store_timezone_str := models.timezone_str store in
  let* business_hours_map := get_business_hours_for_store db store_id in
  let hour_ago := reference_time_utc - timedelta_hours 1 in
  let day_ago := reference_time_utc - timedelta_days 1 in
  let week_ago := reference_time_utc - timedelta_days 7 in
  let poll_query_start_time :=
    week_ago - timedelta_hours POLL_FETCH_BUFFER_HOURS in
  let polls :=
    models.query_polls db store_id poll_query_start_time reference_time_utc in
  let* last_hour :=
    calculate_store_uptime_for_period store_id store_timezone_str
      business_hours_map hour_ago reference_time_utc polls in
  let* last_day :=
    calculate_store_uptime_for_period store_id store_timezone_str
      business_hours_map day_ago reference_time_utc polls in
  let* last_week :=
    calculate_store_uptime_for_period store_id store_timezone_str
      business_hours_map week_ago reference_time_utc polls in
  let uptime_last_day_hr := py_round_ndigits (inject_Z (fst last_day) / 60) 2 in
  let downtime_last_day_hr := py_round_ndigits (inject_Z (snd last_day) / 60) 2 in
  let uptime_last_week_hr := py_round_ndigits (inject_Z (fst last_week) / 60) 2 in
  let downtime_last_week_hr := py_round_ndigits (inject_Z (snd last_week) / 60) 2 in
  Ok {| store_id := store_id;
        uptime_last_hour := py_round (inject_Z (fst last_hour));
        uptime_last_day := uptime_last_day_hr;
        uptime_last_week := uptime_last_week_hr;
        downtime_last_hour := py_round (inject_Z (snd last_hour));
        downtime_last_day := downtime_last_day_hr;
        downtime_last_week := downtime_last_week_hr |}.

End Engine.

(** ** Notions the properties are stated with *)

(** A sample list is non-decreasing by instant. *)
Fixpoint nondecreasing (polls : list StoreStatusPoll) : bool :=
  match polls with
  | [] => true
  | p :: rest =>
      match rest with
      | [] => true
      | q :: _ => (models.timestamp_utc p <=? models.timestamp_utc q) && nondecreasing rest
      end
  end.

(** The samples whose instant is at or before [t], in list order. *)
Definition at_or_before (t : Z) (polls : list StoreStatusPoll) : list StoreStatusPoll :=
  List.filter (fun p => models.timestamp_utc p <=? t) polls.

(** Last observation carried forward, by a full scan of the list: the
    status of the last listed sample at or before [t], else the default. *)
Definition locf (t : Z) (polls : list StoreStatusPoll) : string :=
  match last (at_or_before t polls) with
  | Some p => models.status p
  | None => DEFAULT_STORE_STATUS
  end.

(** The number of 1-minute buckets of [[start, end_)]: the least [n] with
    [start + n minutes >= end_]. *)
Definition bucket_count (start end_ : Z) : nat :=
  Z.to_nat ((end_ - start + us_per_minute - 1) / us_per_minute).

(** The bucket start instants of [[start, end_)], in increasing order. *)
Definition window_buckets (start end_ : Z) : list Z :=
  map (fun k => start + Z.of_nat k * us_per_minute) (seq 0 (bucket_count start end_)).

(** The buckets of the window that fall in business hours. *)
Definition open_buckets (store_tz : tzinfo)
    (business_hours_map : gmap Z (list (Z * Z))) (start end_ : Z) : list Z :=
  List.filter (fun b => is_store_open (astimezone b store_tz) business_hours_map)
    (window_buckets start end_).

(** The number of polls examined over a window scan. *)
Definition window_comparisons (store_tz : tzinfo)
    (business_hours_map : gmap Z (list (Z * Z)))
    (start end_ : Z) (polls : list StoreStatusPoll) : nat :=
  match scan_window store_tz business_hours_map start end_ polls with
  | Some l => log_comparisons l
  | None => O
  end.

(** What a single forward cursor over the samples would examine at most
    during one window scan: every sample once, and one look per query. *)
Definition cursor_budget (start end_ : Z) (polls : list StoreStatusPoll) : nat :=
  (length polls + bucket_count start end_)%nat.

(** [v] is [x] rounded to two decimal places: a multiple of 1/100 at
    distance at most 1/200 from [x]. *)
Definition rounded_2dp (v x : Q) : Prop :=
  Qden v = 100%positive /\ (Qabs (v - x) <= 1 # 200)%Q.

(** A business-hour row as ingestion stores it: a day in 0..6. *)
Definition valid_row (bh : BusinessHour) : Prop :=
  0 <= models.day_of_week bh < 7.

(** ** Data for the examples *)

Module Examples.

(** A zone database with two zones of fixed offset. *)
Definition pytz_timezone (zone : string) : option tzinfo :=
  if String.eqb zone "America/Chicago" then Some (fun _ => - timedelta_hours 6)
  else if String.eqb zone "UTC" then Some (fun _ => 0)
  else None.

(** Monday 22:00 to 02:00 as the only row. *)
Definition monday_overnight_rows : list BusinessHour :=
  [models.mkBusinessHour 0 (mk_time 22 0 0 0) (mk_time 2 0 0 0)].

Definition monday_overnight : gmap Z (list (Z * Z)) :=
  <[0 := [(mk_time 22 0 0 0, mk_time 2 0 0 0)]]> empty_week.

(** The map [get_business_hours_for_store] builds from no rows. *)
Definition always_open : gmap Z (list (Z * Z)) :=
  list_to_map (map (fun d => (d, [(time_min, time_max)])) [0; 1; 2; 3; 4; 5; 6]).

(** Day 4 of the epoch, 1970-01-05, is a Monday. *)
Definition monday_2330 : Z := mk_local 4 (mk_time 23 30 0 0).
Definition tuesday_0100 : Z := mk_local 5 (mk_time 1 0 0 0).
Definition tuesday_0300 : Z := mk_local 5 (mk_time 3 0 0 0).

Definition ref_instant : Z := timedelta_days 100.

Definition polls_one_active : list StoreStatusPoll :=
  [models.mkPoll (ref_instant - timedelta_minutes 45) "active"].

Definition db_no_hours : Session :=
  {| models.query_business_hours := fun _ => [];
     models.query_polls := fun _ _ _ => polls_one_active |}.

Definition db_monday_overnight : Session :=
  {| models.query_business_hours := fun _ => monday_overnight_rows;
     models.query_polls := fun _ _ _ => polls_one_active |}.

(** Two samples at the same instant, the later listed one active. *)
Definition polls_tied : list StoreStatusPoll :=
  [models.mkPoll 0 "inactive"; models.mkPoll 60 "inactive"; models.mkPoll 60 "active";
   models.mkPoll 500 "inactive"].

(** The same samples with the early one moved to the end. *)
Definition polls_unsorted : list StoreStatusPoll :=
  [models.mkPoll 60 "inactive"; models.mkPoll 60 "active"; models.mkPoll 0 "inactive"].

(** Three samples before a window of four minutes. *)
Definition polls_before_window : list StoreStatusPoll :=
  [models.mkPoll (-3) "active"; models.mkPoll (-2) "inactive"; models.mkPoll (-1) "active"].

Definition utc : tzinfo := fun _ => 0.

End Examples.

(** ** Notions for the further properties *)

(** The intervals the rows list for day [d], in row order. *)
Definition intervals_of_day (rows : list BusinessHour) (d : Z) : list (Z * Z) :=
  map (fun bh => (models.start_time_local bh, models.end_time_local bh))
    (List.filter (fun bh => models.day_of_week bh =? d) rows).

(** An interval listed for the local day covers the time of day [t]. *)
Definition covers_today (t : Z) (interval : Z * Z) : Prop :=
  let '(start_time, end_time) := interval in
  (start_time = time_min /\ end_time = time_max) \/
  (start_time <= end_time /\ start_time <= t < end_time) \/
  (end_time < start_time /\ start_time <= t).

(** An interval listed for the previous local day covers [t] after midnight. *)
Definition covers_after_midnight (t : Z) (interval : Z * Z) : Prop :=
  let '(start_time, end_time) := interval in
  end_time < start_time /\ t < end_time.

(** The status carried forward at bucket [b] is exactly 'active'. *)
Definition is_active (polls : list StoreStatusPoll) (b : Z) : bool :=
  String.eqb (get_status_at_time b polls) "active".

(** The open buckets of a window at which the store counts as up, and as down. *)
Definition up_buckets (store_tz : tzinfo)
    (business_hours_map : gmap Z (list (Z * Z))) (polls : list StoreStatusPoll)
    (start end_ : Z) : list Z :=
  List.filter (is_active polls) (open_buckets store_tz business_hours_map start end_).

Definition down_buckets (store_tz : tzinfo)
    (business_hours_map : gmap Z (list (Z * Z))) (polls : list StoreStatusPoll)
    (start end_ : Z) : list Z :=
  List.filter (fun b => negb (is_active polls b))
    (open_buckets store_tz business_hours_map start end_).

(** ** ingestion.py: the row loops of the two loaders

    pandas, the CSV reader and the session are outside the repository.  A
    row of the data frame is given by the outcomes of the library calls the
    loop makes on it; a table is the list of its rows with their store. *)

Module ingestion.

(** The expression
    [datetime.strptime(x, '%H:%M:%S').time() if ':' in str(x) else None]:
    no colon in the cell, [strptime] raising, or a time. *)
Inductive time_cell : Type :=
| NoColon
| BadTime
| GoodTime (t : Z).

(** [None] stands for the raised exception. *)
Definition time_of_cell (c : time_cell) : option (option Z) :=
  match c with
  | NoColon => Some None
  | BadTime => None
  | GoodTime t => Some (Some t)
  end.

(** A row of the business hours file: [_parse_uuid(row['store_id'])],
    [int(row['dayOfWeek'])] ([None] when it raises) and the two time cells. *)
Record hours_row : Type := mkHoursRow {
  hours_store_id : option uuid;
  hours_day : option Z;
  hours_start : time_cell;
  hours_end : time_cell
}.

(** The body of the second loop of [load_business_hours]: [None] when the
    row is skipped, by [continue] or by the [except Exception] clause. *)
Definition business_hour_of_row (row : hours_row) : option BusinessHour :=
  day ← hours_day row;
  start_time ← time_of_cell (hours_start row);
  end_time ← time_of_cell (hours_end row);
  match start_time, end_time with
  | Some s, Some e =>
      if (0 <=? day) && (day <=? 6)
      then Some (models.mkBusinessHour day s e)
      else None
  | _, _ => None
  end.

(** [valid_rows]: the rows whose store id parses, with that id. *)
Definition rows_with_store (df : list hours_row) : list (uuid * hours_row) :=
  omap (fun row => sid ← hours_store_id row; Some (sid, row)) df.

Definition in_stores (stores : list uuid) (sid : uuid) : bool :=
  existsb (N.eqb sid) stores.

(** [load_business_hours] on the table of business hours: the rows of
    the stores found in the file are deleted, the accepted rows added. *)
Definition load_business_hours (table : list (uuid * BusinessHour))
    (df : list hours_row) : list (uuid * BusinessHour) :=
  let valid_rows := rows_with_store df in
  let stores_in_file_uuid := map fst valid_rows in
  let table :=
    match stores_in_file_uuid with
    | [] => table
    | _ :: _ =>
        List.filter (fun r => negb (in_stores stores_in_file_uuid (fst r))) table
    end in
  let hours_to_add :=
    omap (fun '(sid, row) => bh ← business_hour_of_row row; Some (sid, bh))
      valid_rows in
  table ++ hours_to_add.

(** [db.query(BusinessHour).filter(BusinessHour.store_id == store_id).all()] *)
Definition business_hours_of (table : list (uuid * BusinessHour)) (store_id : uuid)
  : list BusinessHour :=
  map snd (List.filter (fun r => N.eqb (fst r) store_id) table).

(** A row of the status file: the parsed store id, [str(row['status'])]
    and the timestamp, [None] for [NaT]. *)
Record status_row : Type := mkStatusRow {
  status_store_id : option uuid;
  status_cell : string;
  status_timestamp : option Z
}.

Section Polls.

(** [str.lower] *)
Variable str_lower : string -> string.

(** The body of the inner loop of [load_status_polls]. *)
Definition poll_of_row (row : status_row) : option StoreStatusPoll :=
  let status := str_lower (status_cell row) in
  let timestamp := status_timestamp row in
  match timestamp with
  | Some ts =>
      if String.eqb status "active" || String.eqb status "inactive"
      then Some (models.mkPoll ts status)
      else None
  | None => None
  end.

Definition polls_of_chunk (chunk : list status_row) : list (uuid * StoreStatusPoll) :=
  omap (fun row =>
          sid ← status_store_id row;
          poll ← poll_of_row row;
          Some (sid, poll)) chunk.

(** [load_status_polls] on the table of polls: every existing poll is
    deleted, then each chunk adds its accepted rows. *)
Definition load_status_polls (table : list (uuid * StoreStatusPoll))
    (chunks : list (list status_row)) : list (uuid * StoreStatusPoll) :=
  fold_left (fun added chunk => added ++ polls_of_chunk chunk) chunks [].

End Polls.

End ingestion.

(** ** database.py and api.py: the report record and its retrieval *)

Module reports.

Record Report : Type := mkReport {
  report_id : string;
  report_status : string;
  created_at : Z;
  completed_at : option Z;
  report_file_path : option string;
  report_store_id : uuid
}.

(** Python's truth value of [file_path]: [None] and the empty string are false. *)
Definition truthy (file_path : option string) : bool :=
  match file_path with
  | Some p => negb (String.eqb p "")
  | None => false
  end.

(** [update_report_status]: an UPDATE of the row with that id, if any.
    [now] is [datetime.datetime.now(pytz.utc)]. *)
Definition update_report_status (db : gmap string Report) (report_id : string)
    (status : string) (file_path : option string) (now : Z) : gmap string Report :=
  alter (fun r =>
           {| report_id := reports.report_id r;
              report_status := status;
              created_at := created_at r;
              completed_at :=
                if String.eqb status "COMPLETE" || String.eqb status "FAILED"
                then Some now else completed_at r;
              report_file_path :=
                if truthy file_path && String.eqb status "COMPLETE"
                then file_path else report_file_path r;
              report_store_id := report_store_id r |})
    report_id db.

(** [get_report_details] *)
Definition get_report_details (db : gmap string Report) (report_id : string)
  : option Report :=
  db !! report_id.

Inductive response : Type :=
| JSONResponse (status_code : Z) (status : string)
| FileResponse (path : string)
| HTTPException (status_code : Z).

(** [get_report]; [isfile] is [os.path.isfile]. *)
Definition get_report (db : gmap string Report) (isfile : string -> bool)
    (report_id : string) : response :=
  match get_report_details db report_id with
  | None => HTTPException 404
  | Some report =>
      let status := report_status report in
      let file_path := report_file_path report in
      if String.eqb status "PENDING" || String.eqb status "RUNNING"
      then JSONResponse 202 "running"
      else if String.eqb status "FAILED" then JSONResponse 410 "failed"
      else if String.eqb status "COMPLETE" then
        match file_path with
        | Some p =>
            if truthy file_path && isfile p then FileResponse p
            else HTTPException 500
        | None => HTTPException 500
        end
      else HTTPException 500
  end.

End reports.

(** * Properties *)

(** ** Calendar arithmetic *)

Lemma us_per_minute_pos : 0 < us_per_minute.
Proof. reflexivity. Qed.

Lemma us_per_day_pos : 0 < us_per_day.
Proof. reflexivity. Qed.

Lemma weekday_range (local_dt : Z) : 0 <= weekday local_dt < 7.
Proof. unfold weekday. apply Z.mod_pos_bound. lia. Qed.

Lemma time_of_range (local_dt : Z) : 0 <= time_of local_dt < us_per_day.
Proof. unfold time_of. apply Z.mod_pos_bound. exact us_per_day_pos. Qed.

Lemma weekday_plus_week (local_dt : Z) :
  weekday (local_dt + timedelta_days 7) = weekday local_dt.
Proof.
  unfold weekday, timedelta_days.
  rewrite Z.div_add by (pose proof us_per_day_pos; lia).
  replace (local_dt / us_per_day + 7 + 3) with (local_dt / us_per_day + 3 + 1 * 7) by lia.
  apply Z_mod_plus_full.
Qed.

Lemma time_of_plus_week (local_dt : Z) :
  time_of (local_dt + timedelta_days 7) = time_of local_dt.
Proof. unfold time_of, timedelta_days. apply Z_mod_plus_full. Qed.

Lemma prev_of_next_day (d : Z) : 0 <= d < 7 -> ((d + 1) mod 7 - 1 + 7) mod 7 = d.
Proof.
  intros Hd.
  assert (Hc : d = 0 \/ d = 1 \/ d = 2 \/ d = 3 \/ d = 4 \/ d = 5 \/ d = 6) by lia.
  destruct Hc as [-> | [-> | [-> | [-> | [-> | [-> | ->]]]]]]; reflexivity.
Qed.

(** ** The schedule *)

Lemma is_store_open_fields (local_dt : Z) (m : gmap Z (list (Z * Z))) :
  is_store_open local_dt m =
  open_today (time_of local_dt) (default [] (m !! weekday local_dt))
  || open_from_prev_day (time_of local_dt)
       (default [] (m !! ((weekday local_dt - 1 + 7) mod 7))).
Proof. unfold is_store_open. destruct (open_today _ _); reflexivity. Qed.

Lemma open_today_overnight (t s e : Z) (intervals : list (Z * Z)) :
  In (s, e) intervals -> e < s -> s <= t -> open_today t intervals = true.
Proof.
  intros Hin Hov Hst.
  induction intervals as [| [s' e'] rest IH]; [contradiction |].
  cbn [open_today].
  destruct ((s' =? time_min) && (e' =? time_max)); [reflexivity |].
  destruct Hin as [Heq | Hin].
  - injection Heq as -> ->.
    destruct (Z.leb_spec s e); [lia |].
    destruct (Z.leb_spec s t); [reflexivity | lia].
  - rewrite (IH Hin).
    destruct (s' <=? e');
      [destruct ((s' <=? t) && (t <? e')) | destruct (s' <=? t)]; reflexivity.
Qed.

Lemma open_from_prev_day_overnight (t s e : Z) (intervals : list (Z * Z)) :
  In (s, e) intervals -> e < s -> t < e -> open_from_prev_day t intervals = true.
Proof.
  intros Hin Hov Hte.
  induction intervals as [| [s' e'] rest IH]; [contradiction |].
  cbn [open_from_prev_day].
  destruct Hin as [Heq | Hin].
  - injection Heq as -> ->.
    rewrite Z.gtb_ltb.
    destruct (Z.ltb_spec e s); [| lia].
    destruct (Z.ltb_spec t e); [reflexivity | lia].
  - rewrite (IH Hin).
    destruct (s' >? e'); [destruct (t <? e') |]; reflexivity.
Qed.

Lemma always_open_lookup (d : Z) :
  0 <= d < 7 -> Examples.always_open !! d = Some [(time_min, time_max)].
Proof.
  intros Hd.
  assert (Hc : d = 0 \/ d = 1 \/ d = 2 \/ d = 3 \/ d = 4 \/ d = 5 \/ d = 6) by lia.
  destruct Hc as [-> | [-> | [-> | [-> | [-> | [-> | ->]]]]]]; reflexivity.
Qed.

Lemma is_store_open_always_open (local_dt : Z) :
  is_store_open local_dt Examples.always_open = true.
Proof.
  unfold is_store_open.
  rewrite (always_open_lookup (weekday local_dt) (weekday_range local_dt)).
  reflexivity.
Qed.

Lemma get_business_hours_no_rows (db : Session) (store_id : uuid) :
  models.query_business_hours db store_id = [] ->
  get_business_hours_for_store db store_id = Ok Examples.always_open.
Proof.
  intros Hrows. unfold get_business_hours_for_store. rewrite Hrows.
  vm_compute. reflexivity.
Qed.

(** C3. A site with no business-hour rows is open at every instant: the map
    built by [get_business_hours_for_store] makes [is_store_open] true for
    every local datetime, hence for every UTC instant seen through any
    timezone. *)
Theorem default_24_7 (db : Session) (store_id : uuid)
    (Hrows : models.query_business_hours db store_id = []) :
  exists m,
    get_business_hours_for_store db store_id = Ok m /\
    (forall local_dt, is_store_open local_dt m = true) /\
    (forall utc_dt (tz : tzinfo), is_store_open (astimezone utc_dt tz) m = true).
Proof.
  exists Examples.always_open. split; [| split].
  - apply get_business_hours_no_rows, Hrows.
  - apply is_store_open_always_open.
  - intros utc_dt tz. apply is_store_open_always_open.
Qed.

Lemma default_24_7_witness :
  exists m,
    get_business_hours_for_store Examples.db_no_hours 1%N = Ok m /\
    (forall local_dt, is_store_open local_dt m = true) /\
    (forall utc_dt (tz : tzinfo), is_store_open (astimezone utc_dt tz) m = true).
Proof. apply (default_24_7 Examples.db_no_hours 1%N). reflexivity. Defined.

Lemma get_business_hours_monday_overnight (store_id : uuid) :
  get_business_hours_for_store Examples.db_monday_overnight store_id
  = Ok Examples.monday_overnight.
Proof. vm_compute. reflexivity. Qed.

(** C4. With (22:00, 02:00) on Monday as the only interval, Monday 23:30
    and Tuesday 01:00 are open and Tuesday 03:00 is closed.  In general an
    interval with start > end listed for day [d] opens every instant of
    day [d] from start on, and every instant of the following day before
    end. *)
Theorem overnight_wrap :
  get_business_hours_for_store Examples.db_monday_overnight 1%N
    = Ok Examples.monday_overnight /\
  (forall local_dt,
     weekday local_dt = 0 -> time_of local_dt = mk_time 23 30 0 0 ->
     is_store_open local_dt Examples.monday_overnight = true) /\
  (forall local_dt,
     weekday local_dt = 1 -> time_of local_dt = mk_time 1 0 0 0 ->
     is_store_open local_dt Examples.monday_overnight = true) /\
  (forall local_dt,
     weekday local_dt = 1 -> time_of local_dt = mk_time 3 0 0 0 ->
     is_store_open local_dt Examples.monday_overnight = false) /\
  (forall (m : gmap Z (list (Z * Z))) d start_time end_time local_dt,
     In (start_time, end_time) (default [] (m !! d)) ->
     start_time > end_time ->
     weekday local_dt = d -> start_time <= time_of local_dt ->
     is_store_open local_dt m = true) /\
  (forall (m : gmap Z (list (Z * Z))) d start_time end_time local_dt,
     0 <= d < 7 ->
     In (start_time, end_time) (default [] (m !! d)) ->
     start_time > end_time ->
     weekday local_dt = (d + 1) mod 7 -> time_of local_dt < end_time ->
     is_store_open local_dt m = true).
Proof.
  split; [apply get_business_hours_monday_overnight |].
  split; [| split; [| split; [| split]]].
  - intros local_dt Hw Ht. unfold is_store_open. rewrite Hw, Ht. reflexivity.
  - intros local_dt Hw Ht. unfold is_store_open. rewrite Hw, Ht. reflexivity.
  - intros local_dt Hw Ht. unfold is_store_open. rewrite Hw, Ht. reflexivity.
  - intros m d s e local_dt Hin Hov Hw Ht.
    rewrite is_store_open_fields, Hw.
    rewrite (open_today_overnight _ s e) by (assumption || lia). reflexivity.
  - intros m d s e local_dt Hd Hin Hov Hw Ht.
    rewrite is_store_open_fields, Hw, (prev_of_next_day d Hd).
    rewrite (open_from_prev_day_overnight _ s e) by (assumption || lia).
    apply orb_true_r.
Qed.

Lemma overnight_wrap_witness :
  is_store_open Examples.monday_2330 Examples.monday_overnight = true /\
  is_store_open Examples.tuesday_0100 Examples.monday_overnight = true /\
  is_store_open Examples.tuesday_0300 Examples.monday_overnight = false.
Proof.
  destruct overnight_wrap as (_ & Hmon & Htue1 & Htue3 & _).
  split; [| split].
  - apply Hmon; reflexivity.
  - apply Htue1; reflexivity.
  - apply Htue3; reflexivity.
Defined.

(** C10. The schedule is weekly periodic: [is_store_open] gives the same
    answer at two local datetimes with the same weekday and the same time
    of day, in particular at two local datetimes seven days apart. *)
Theorem is_store_open_weekly_periodic
    (m : gmap Z (list (Z * Z))) (local_dt1 local_dt2 : Z)
    (Hday : weekday local_dt1 = weekday local_dt2)
    (Htime : time_of local_dt1 = time_of local_dt2) :
  is_store_open local_dt1 m = is_store_open local_dt2 m /\
  is_store_open (local_dt1 + timedelta_days 7) m = is_store_open local_dt1 m.
Proof.
  split.
  - unfold is_store_open. rewrite Hday, Htime. reflexivity.
  - unfold is_store_open. rewrite weekday_plus_week, time_of_plus_week. reflexivity.
Qed.

Lemma is_store_open_weekly_periodic_witness :
  is_store_open Examples.monday_2330 Examples.monday_overnight
    = is_store_open (mk_local 18 (mk_time 23 30 0 0)) Examples.monday_overnight /\
  is_store_open (Examples.monday_2330 + timedelta_days 7) Examples.monday_overnight
    = is_store_open Examples.monday_2330 Examples.monday_overnight.
Proof.
  apply (is_store_open_weekly_periodic Examples.monday_overnight
           Examples.monday_2330 (mk_local 18 (mk_time 23 30 0 0)));
    reflexivity.
Defined.

(** ** The status timeline *)

Lemma nondecreasing_tail (p : StoreStatusPoll) (rest : list StoreStatusPoll) :
  nondecreasing (p :: rest) = true -> nondecreasing rest = true.
Proof.
  destruct rest as [| q rest]; [reflexivity |].
  cbn [nondecreasing]. intros H. apply andb_true_iff in H. apply H.
Qed.

Lemma nondecreasing_head_le (p : StoreStatusPoll) (rest : list StoreStatusPoll) :
  nondecreasing (p :: rest) = true ->
  Forall (fun q => models.timestamp_utc p <= models.timestamp_utc q) rest.
Proof.
  revert p. induction rest as [| q rest IH]; intros p H; [constructor |].
  cbn [nondecreasing] in H. apply andb_true_iff in H as [Hpq Hrest].
  apply Z.leb_le in Hpq.
  constructor; [exact Hpq |].
  eapply Forall_impl; [apply (IH q Hrest) |].
  cbn. intros r Hr. lia.
Qed.

Lemma nondecreasing_lookup (polls : list StoreStatusPoll) (i j : nat)
    (a b : StoreStatusPoll) :
  nondecreasing polls = true -> (i <= j)%nat ->
  polls !! i = Some a -> polls !! j = Some b ->
  models.timestamp_utc a <= models.timestamp_utc b.
Proof.
  revert i j. induction polls as [| p rest IH]; intros i j Hs Hij Hi Hj.
  - discriminate.
  - destruct i as [| i], j as [| j]; cbn in Hi, Hj.
    + injection Hi as <-. injection Hj as <-. lia.
    + injection Hi as <-.
      pose proof (nondecreasing_head_le p rest Hs) as Hall.
      rewrite Forall_forall in Hall. apply Hall.
      eapply list_elem_of_lookup_2, Hj.
    + lia.
    + apply (IH i j); [eapply nondecreasing_tail, Hs | lia | assumption | assumption].
Qed.

(** The scan returns the status of the last sample of a prefix that lies
    at or before the target, when the sample after the prefix lies after. *)
Lemma status_scan_split (t : Z) (l1 l2 : list StoreStatusPoll) (d : string) :
  Forall (fun p => models.timestamp_utc p <= t) l1 ->
  (forall q, head l2 = Some q -> t < models.timestamp_utc q) ->
  status_scan t (l1 ++ l2) d
  = match last l1 with Some p => models.status p | None => d end.
Proof.
  intros Hl1 Hl2. revert d.
  induction Hl1 as [| p l1 Hp Hl1 IH]; intros d.
  - destruct l2 as [| q l2]; [reflexivity |].
    cbn. specialize (Hl2 q eq_refl).
    destruct (Z.leb_spec (models.timestamp_utc q) t); [lia | reflexivity].
  - cbn [app status_scan].
    destruct (Z.leb_spec (models.timestamp_utc p) t); [| lia].
    rewrite IH, last_cons. destruct (last l1); reflexivity.
Qed.

Lemma at_or_before_none (t : Z) (polls : list StoreStatusPoll) :
  Forall (fun q => t < models.timestamp_utc q) polls -> at_or_before t polls = [].
Proof.
  induction 1 as [| q rest Hq _ IH]; [reflexivity |].
  unfold at_or_before in *. cbn.
  destruct (Z.leb_spec (models.timestamp_utc q) t); [lia | exact IH].
Qed.

Lemma status_scan_locf (t : Z) (polls : list StoreStatusPoll) (d : string) :
  nondecreasing polls = true ->
  status_scan t polls d
  = match last (at_or_before t polls) with
    | Some p => models.status p
    | None => d
    end.
Proof.
  revert d. induction polls as [| p rest IH]; intros d Hs; [reflexivity |].
  unfold at_or_before in *. cbn [status_scan List.filter].
  destruct (Z.leb_spec (models.timestamp_utc p) t) as [Hle | Hgt].
  - rewrite (IH _ (nondecreasing_tail _ _ Hs)), last_cons.
    destruct (last _); reflexivity.
  - pose proof (nondecreasing_head_le p rest Hs) as Hall.
    assert (Hnone : at_or_before t rest = []).
    { apply at_or_before_none. eapply Forall_impl; [exact Hall |]. cbn. intros; lia. }
    unfold at_or_before in Hnone. rewrite Hnone. reflexivity.
Qed.

Lemma at_or_before_greatest (t : Z) (polls : list StoreStatusPoll) (p : StoreStatusPoll) :
  nondecreasing polls = true ->
  last (at_or_before t polls) = Some p ->
  In p polls /\ models.timestamp_utc p <= t /\
  (forall q, In q polls -> models.timestamp_utc q <= t ->
             models.timestamp_utc q <= models.timestamp_utc p).
Proof.
  revert p. induction polls as [| a rest IH]; intros p Hs Hlast; [discriminate |].
  unfold at_or_before in *. cbn [List.filter] in Hlast.
  pose proof (nondecreasing_head_le a rest Hs) as Hall.
  rewrite Forall_forall in Hall.
  destruct (Z.leb_spec (models.timestamp_utc a) t) as [Hle | Hgt].
  - rewrite last_cons in Hlast.
    destruct (last (List.filter _ rest)) as [x |] eqn:Hx.
    + injection Hlast as ->.
      destruct (IH p (nondecreasing_tail _ _ Hs) eq_refl) as (Hin & Hpt & Hmax).
      split; [right; exact Hin |]. split; [exact Hpt |].
      intros q [<- | Hq] Hqt.
      * apply Hall. apply list_elem_of_In, Hin.
      * apply Hmax; assumption.
    + injection Hlast as ->.
      split; [left; reflexivity |]. split; [exact Hle |].
      intros q [<- | Hq] Hqt; [lia |].
      apply last_None in Hx.
      assert (Hqin : In q (List.filter (fun p => models.timestamp_utc p <=? t) rest)).
      { apply filter_In. split; [exact Hq | apply Z.leb_le, Hqt]. }
      rewrite Hx in Hqin. contradiction.
  - assert (Hnone : at_or_before t rest = []).
    { apply at_or_before_none. apply Forall_forall. intros q Hq.
      specialize (Hall q Hq). cbn in Hall. lia. }
    unfold at_or_before in Hnone. rewrite Hnone in Hlast. discriminate.
Qed.

Lemma status_scan_at_index (t : Z) (polls : list StoreStatusPoll) (j : nat)
    (q : StoreStatusPoll) (d : string) :
  nondecreasing polls = true ->
  polls !! j = Some q ->
  models.timestamp_utc q <= t ->
  (forall r, polls !! S j = Some r -> t < models.timestamp_utc r) ->
  status_scan t polls d = models.status q.
Proof.
  intros Hs Hj Hqt Hnext.
  rewrite <- (take_drop (S j) polls).
  rewrite status_scan_split.
  - rewrite last_lookup, length_take_le
      by (apply lookup_lt_Some in Hj; lia).
    cbn [pred]. rewrite lookup_take_lt by lia. rewrite Hj. reflexivity.
  - apply Forall_lookup. intros k r Hk.
    apply lookup_take_Some in Hk as [Hk Hlt].
    pose proof (nondecreasing_lookup polls k j r q Hs ltac:(lia) Hk Hj). lia.
  - intros r Hr. rewrite head_lookup, lookup_drop in Hr.
    apply Hnext. rewrite <- Hr. f_equal. lia.
Qed.

(** C2. On a sample list that is non-decreasing by instant,
    [get_status_at_time] returns the status of the latest sample at or
    before the target, and the default when there is none: it is the
    default before the first sample, the status of sample [i] from its
    instant up to the instant of sample [i+1], the status of the last
    sample from its instant on, and the default on the empty list. *)
Theorem locf_correct (t : Z) (polls : list StoreStatusPoll)
    (Hsorted : nondecreasing polls = true) :
  get_status_at_time t polls = locf t polls /\
  (forall p, last (at_or_before t polls) = Some p ->
     In p polls /\ models.timestamp_utc p <= t /\
     forall q, In q polls -> models.timestamp_utc q <= t ->
               models.timestamp_utc q <= models.timestamp_utc p) /\
  ((forall q, In q polls -> t < models.timestamp_utc q) ->
     get_status_at_time t polls = DEFAULT_STORE_STATUS) /\
  (forall i p q,
     polls !! i = Some p -> polls !! S i = Some q ->
     models.timestamp_utc p <= t < models.timestamp_utc q ->
     get_status_at_time t polls = models.status p) /\
  (forall p,
     last polls = Some p -> models.timestamp_utc p <= t ->
     get_status_at_time t polls = models.status p) /\
  get_status_at_time t [] = DEFAULT_STORE_STATUS.
Proof.
  split; [apply status_scan_locf, Hsorted |].
  split; [intros p; apply at_or_before_greatest, Hsorted |].
  split; [| split; [| split]].
  - intros Hall. unfold get_status_at_time.
    rewrite (status_scan_locf _ _ _ Hsorted), at_or_before_none; [reflexivity |].
    apply Forall_forall. intros q Hq. apply Hall, list_elem_of_In, Hq.
  - intros i p q Hi Hsi [Hpt Htq]. unfold get_status_at_time.
    apply (status_scan_at_index t polls i p); try assumption.
    intros r Hr. rewrite Hsi in Hr. injection Hr as <-. exact Htq.
  - intros p Hlast Hpt. unfold get_status_at_time.
    rewrite last_lookup in Hlast.
    apply (status_scan_at_index t polls (pred (length polls)) p); try assumption.
    intros r Hr. apply lookup_lt_Some in Hr.
    destruct polls; [discriminate | cbn in Hr; lia].
  - reflexivity.
Qed.

Lemma locf_correct_witness :
  get_status_at_time 100 Examples.polls_tied = locf 100 Examples.polls_tied /\
  get_status_at_time 100 Examples.polls_tied = "active"%string /\
  get_status_at_time (-1) Examples.polls_tied = DEFAULT_STORE_STATUS.
Proof.
  split; [| split].
  - exact (proj1 (locf_correct 100 Examples.polls_tied eq_refl)).
  - destruct (locf_correct 100 Examples.polls_tied eq_refl)
      as (_ & _ & _ & Hmid & _).
    apply (Hmid 2%nat (models.mkPoll 60 "active") (models.mkPoll 500 "inactive"));
      [reflexivity | reflexivity | cbn; lia].
  - destruct (locf_correct (-1) Examples.polls_tied eq_refl)
      as (_ & _ & Hbefore & _).
    apply Hbefore. intros q Hq. cbn in Hq.
    destruct Hq as [<- | [<- | [<- | [<- | []]]]]; cbn; lia.
Defined.

(** C5. On a sample list that is non-decreasing by instant (the order in
    which samples reach the computation), when several samples share the
    greatest instant at or before the target, [get_status_at_time]
    returns the status of the one listed last among them. *)
Theorem duplicate_last_wins (t : Z) (polls : list StoreStatusPoll)
    (i j : nat) (p q : StoreStatusPoll)
    (Hsorted : nondecreasing polls = true)
    (Hi : polls !! i = Some p) (Hj : polls !! j = Some q) (Hij : (i < j)%nat)
    (Htie : models.timestamp_utc p = models.timestamp_utc q)
    (Hqt : models.timestamp_utc q <= t)
    (Hgreatest : Forall (fun r => models.timestamp_utc r <= t ->
                                  models.timestamp_utc r <= models.timestamp_utc q) polls)
    (Hlatest : Forall (fun r => models.timestamp_utc r <> models.timestamp_utc q)
                 (drop (S j) polls)) :
  get_status_at_time t polls = models.status q.
Proof.
  unfold get_status_at_time.
  apply (status_scan_at_index t polls j q); try assumption.
  intros r Hr.
  assert (Hqr : models.timestamp_utc q <= models.timestamp_utc r).
  { apply (nondecreasing_lookup polls j (S j) q r); [assumption | lia | assumption | assumption]. }
  assert (Hne : models.timestamp_utc r <> models.timestamp_utc q).
  { rewrite Forall_lookup in Hlatest. apply (Hlatest 0%nat r).
    rewrite lookup_drop. rewrite <- Hr. f_equal. lia. }
  rewrite Forall_forall in Hgreatest.
  specialize (Hgreatest r (list_elem_of_lookup_2 _ _ _ Hr)). cbn in Hgreatest.
  lia.
Qed.

Lemma duplicate_last_wins_witness :
  get_status_at_time 100 Examples.polls_tied = "active"%string.
Proof.
  apply (duplicate_last_wins 100 Examples.polls_tied 1 2
           (models.mkPoll 60 "inactive") (models.mkPoll 60 "active"));
    try reflexivity; try lia.
  - cbn. lia.
  - repeat constructor; cbn; lia.
  - repeat constructor; cbn; lia.
Defined.

(** Off the invariant the scan follows list order alone: it stops at the
    first sample after the target and otherwise keeps the last one read. *)
Example scan_of_unsorted_list :
  get_status_at_time 100 Examples.polls_unsorted = "inactive"%string.
Proof. reflexivity. Qed.

(** ** The window scan *)

Lemma bucket_count_zero (cur end_ : Z) : end_ <= cur -> bucket_count cur end_ = O.
Proof.
  intros H. unfold bucket_count. change us_per_minute with 60000000.
  assert ((end_ - cur + 60000000 - 1) / 60000000 <= 0); [| lia].
  assert ((end_ - cur + 60000000 - 1) / 60000000 < 1); [| lia].
  apply Z.div_lt_upper_bound; lia.
Qed.

Lemma bucket_count_step (cur end_ : Z) :
  cur < end_ ->
  bucket_count cur end_ = S (bucket_count (cur + timedelta_minutes 1) end_).
Proof.
  intros H. unfold bucket_count, timedelta_minutes.
  change us_per_minute with 60000000.
  replace (end_ - cur + 60000000 - 1)
    with (end_ - (cur + 1 * 60000000) + 60000000 - 1 + 1 * 60000000) by lia.
  rewrite Z.div_add by lia.
  assert (0 <= (end_ - (cur + 1 * 60000000) + 60000000 - 1) / 60000000).
  { apply Z.div_pos; lia. }
  lia.
Qed.

Lemma window_buckets_nil (cur end_ : Z) : end_ <= cur -> window_buckets cur end_ = [].
Proof. intros H. unfold window_buckets. rewrite bucket_count_zero by exact H. reflexivity. Qed.

Lemma window_buckets_step (cur end_ : Z) :
  cur < end_ ->
  window_buckets cur end_ = cur :: window_buckets (cur + timedelta_minutes 1) end_.
Proof.
  intros H. unfold window_buckets. rewrite (bucket_count_step _ _ H).
  cbn [seq map]. f_equal; [lia |].
  rewrite <- seq_shift, map_map. apply map_ext.
  intros k. unfold timedelta_minutes. lia.
Qed.

Lemma window_buckets_length (start end_ : Z) :
  length (window_buckets start end_) = bucket_count start end_.
Proof. unfold window_buckets. rewrite length_map, length_seq. reflexivity. Qed.

(** The buckets are the instants [start + k minutes], [k >= 0], before [end_]. *)
Lemma window_buckets_spec (start end_ b : Z) :
  In b (window_buckets start end_) <->
  exists k, 0 <= k /\ b = start + timedelta_minutes k /\ b < end_.
Proof.
  unfold window_buckets, bucket_count, timedelta_minutes.
  change us_per_minute with 60000000.
  pose proof (Z.mul_div_le (end_ - start + 60000000 - 1) 60000000 ltac:(lia)) as Hlo.
  pose proof (Z.mul_succ_div_gt (end_ - start + 60000000 - 1) 60000000 ltac:(lia)) as Hhi.
  set (n := (end_ - start + 60000000 - 1) / 60000000) in *.
  rewrite in_map_iff. split.
  - intros (k & <- & Hk). apply in_seq in Hk.
    exists (Z.of_nat k). split; [lia |]. split; [lia |]. lia.
  - intros (k & Hk & -> & Hlt).
    exists (Z.to_nat k). split; [lia |]. apply in_seq. lia.
Qed.

Lemma loop_bound_enough (start end_ : Z) :
  (bucket_count start end_ < loop_bound start end_)%nat.
Proof.
  unfold bucket_count, loop_bound. change us_per_minute with 60000000.
  assert ((end_ - start + 60000000 - 1) / 60000000 <= (end_ - start) / 60000000 + 1);
    [| lia].
  replace ((end_ - start) / 60000000 + 1)
    with ((end_ - start + 1 * 60000000) / 60000000) by (apply Z.div_add; lia).
  apply Z.div_le_mono; lia.
Qed.

Section EngineFacts.

Variable pytz_timezone : string -> option tzinfo.
Variable store_tz : tzinfo.
Variable business_hours_map : gmap Z (list (Z * Z)).
Variable polls : list StoreStatusPoll.

Let is_open (b : Z) : bool :=
  is_store_open (astimezone b store_tz) business_hours_map.

Let classify := classify_minute store_tz business_hours_map polls.
Let step (l : scan_log) (b : Z) : scan_log :=
  log_minute store_tz business_hours_map polls b l.

Lemma minute_loop_log_run (end_ : Z) (fuel : nat) (cur : Z) (l : scan_log) :
  (bucket_count cur end_ < fuel)%nat ->
  minute_loop_log fuel store_tz business_hours_map polls cur end_ l
  = Some (fold_left step (window_buckets cur end_) l).
Proof.
  revert cur l. induction fuel as [| fuel IH]; intros cur l Hfuel; [lia |].
  cbn [minute_loop_log].
  destruct (Z.ltb_spec cur end_) as [Hlt | Hge].
  - rewrite (window_buckets_step _ _ Hlt). cbn [fold_left].
    apply IH. rewrite (bucket_count_step _ _ Hlt) in Hfuel. lia.
  - rewrite (window_buckets_nil _ _ Hge). reflexivity.
Qed.

Lemma minute_loop_erase (end_ : Z) (fuel : nat) (cur : Z) (l : scan_log) :
  minute_loop fuel store_tz business_hours_map polls cur end_ (log_counters l)
  = option_map log_counters
      (minute_loop_log fuel store_tz business_hours_map polls cur end_ l).
Proof.
  revert cur l. induction fuel as [| fuel IH]; intros cur l; [reflexivity |].
  cbn [minute_loop minute_loop_log].
  destruct (cur <? end_); [| reflexivity].
  rewrite <- IH. reflexivity.
Qed.

Lemma fold_step_buckets (bs : list Z) (l : scan_log) :
  log_buckets (fold_left step bs l) = log_buckets l ++ bs.
Proof.
  revert l. induction bs as [| b bs IH]; intros l; cbn [fold_left].
  - rewrite app_nil_r. reflexivity.
  - rewrite IH. cbn. rewrite <- app_assoc. reflexivity.
Qed.

Lemma fold_step_counters (bs : list Z) (l : scan_log) :
  log_counters (fold_left step bs l)
  = fold_left (fun c b => classify b c) bs (log_counters l).
Proof.
  revert l. induction bs as [| b bs IH]; intros l; cbn [fold_left]; [reflexivity |].
  rewrite IH. reflexivity.
Qed.

Lemma fold_step_comparisons (bs : list Z) (l : scan_log) :
  log_comparisons (fold_left step bs l)
  = (log_comparisons l
     + list_sum (map (fun b => status_scan_cost b polls) (List.filter is_open bs)))%nat.
Proof.
  revert l. induction bs as [| b bs IH]; intros l; cbn [fold_left List.filter].
  - cbn. lia.
  - rewrite IH. unfold is_open. cbn.
    destruct (is_store_open _ _); cbn; unfold list_sum; lia.
Qed.

Lemma fold_classify_counts (bs : list Z) (up down : Z) :
  let r := fold_left (fun c b => classify b c) bs (up, down) in
  up <= fst r /\ down <= snd r /\
  fst r + snd r = up + down + Z.of_nat (length (List.filter is_open bs)).
Proof.
  revert up down. induction bs as [| b bs IH]; intros up down; cbn [fold_left List.filter].
  - cbn. lia.
  - assert (Hb : classify b (up, down)
                 = if is_open b
                   then if String.eqb (get_status_at_time b polls) "active"
                        then (up + 1, down) else (up, down + 1)
                   else (up, down)) by reflexivity.
    cbn zeta in *. rewrite Hb. clear Hb.
    destruct (is_open b).
    + destruct (String.eqb _ _).
      * specialize (IH (up + 1) down). cbn [length]. lia.
      * specialize (IH up (down + 1)). cbn [length]. lia.
    + apply IH.
Qed.

Lemma scan_window_run (start end_ : Z) :
  scan_window store_tz business_hours_map start end_ polls
  = Some (fold_left step (window_buckets start end_)
            {| log_counters := (0, 0); log_buckets := []; log_comparisons := O |}).
Proof. unfold scan_window. apply minute_loop_log_run, loop_bound_enough. Qed.

Lemma calculate_as_scan (store_id : uuid) (store_timezone_str : string)
    (start end_ : Z) :
  resolve_timezone pytz_timezone store_timezone_str = Ok store_tz ->
  calculate_store_uptime_for_period pytz_timezone store_id store_timezone_str
    business_hours_map start end_ polls
  = Ok (fold_left (fun c b => classify b c) (window_buckets start end_) (0, 0)).
Proof.
  intros Htz. unfold calculate_store_uptime_for_period. rewrite Htz. cbn [bind].
  change (0, 0) with
    (log_counters {| log_counters := (0, 0); log_buckets := []; log_comparisons := O |}).
  rewrite minute_loop_erase, minute_loop_log_run by apply loop_bound_enough.
  cbn [option_map]. rewrite fold_step_counters. reflexivity.
Qed.

End EngineFacts.

Lemma calculate_never_out_of_fuel (pytz_timezone : string -> option tzinfo)
    (store_id : uuid) (store_timezone_str : string)
    (business_hours_map : gmap Z (list (Z * Z))) (start end_ : Z)
    (polls : list StoreStatusPoll) :
  calculate_store_uptime_for_period pytz_timezone store_id store_timezone_str
    business_hours_map start end_ polls <> Raise OutOfFuel.
Proof.
  destruct (resolve_timezone pytz_timezone store_timezone_str) as [tz | e] eqn:Htz.
  - rewrite (calculate_as_scan pytz_timezone tz _ _ _ _ _ _ Htz). discriminate.
  - unfold calculate_store_uptime_for_period. rewrite Htz. cbn [bind].
    unfold resolve_timezone in Htz.
    destruct (pytz_timezone store_timezone_str); [discriminate |].
    destruct (pytz_timezone DEFAULT_TIMEZONE); [discriminate |].
    injection Htz as <-. discriminate.
Qed.

Lemma window_buckets_NoDup (start end_ : Z) : List.NoDup (window_buckets start end_).
Proof.
  unfold window_buckets.
  assert (Hinj : Inj (=) (=) (fun k : nat => start + Z.of_nat k * us_per_minute)).
  { intros j k Hjk. pose proof us_per_minute_pos. nia. }
  apply NoDup_ListNoDup, (NoDup_fmap_2 _), NoDup_seq.
Qed.

Lemma filter_length_bound {A : Type} (f : A -> bool) (l : list A) :
  (length (List.filter f l) <= length l)%nat.
Proof.
  induction l as [| a l IH]; cbn; [lia |].
  destruct (f a); cbn; lia.
Qed.

(** C1. Over any window the two totals returned by
    [calculate_store_uptime_for_period] are non-negative and add up to the
    number of 1-minute buckets of the window whose start instant, seen in
    the site's timezone, is within business hours; closed minutes are in
    neither total, so the sum is the window length only when every bucket
    is open. *)
Theorem open_minutes_conservation
    (pytz_timezone : string -> option tzinfo) (store_id : uuid)
    (store_timezone_str : string) (store_tz : tzinfo)
    (business_hours_map : gmap Z (list (Z * Z)))
    (interval_start_utc interval_end_utc : Z) (polls : list StoreStatusPoll)
    (Htz : resolve_timezone pytz_timezone store_timezone_str = Ok store_tz) :
  exists minutes_up minutes_down,
    calculate_store_uptime_for_period pytz_timezone store_id store_timezone_str
      business_hours_map interval_start_utc interval_end_utc polls
    = Ok (minutes_up, minutes_down) /\
    0 <= minutes_up /\ 0 <= minutes_down /\
    minutes_up + minutes_down
    = Z.of_nat (length (open_buckets store_tz business_hours_map
                          interval_start_utc interval_end_utc)) /\
    (forall b,
       In b (open_buckets store_tz business_hours_map
               interval_start_utc interval_end_utc) <->
       (exists k, 0 <= k /\ b = interval_start_utc + timedelta_minutes k /\
                  b < interval_end_utc) /\
       is_store_open (astimezone b store_tz) business_hours_map = true) /\
    List.NoDup (open_buckets store_tz business_hours_map
                  interval_start_utc interval_end_utc) /\
    minutes_up + minutes_down
    <= Z.of_nat (bucket_count interval_start_utc interval_end_utc).
Proof.
  rewrite (calculate_as_scan pytz_timezone store_tz _ _ _ _ _ _ Htz).
  pose proof (fold_classify_counts store_tz business_hours_map polls
                (window_buckets interval_start_utc interval_end_utc) 0 0) as Hc.
  cbn zeta in Hc.
  destruct (fold_left _ _ _) as [up down] eqn:Hfold. cbn [fst snd] in Hc.
  exists up, down. split; [reflexivity |].
  split; [lia |]. split; [lia |].
  split; [unfold open_buckets; lia |].
  split; [| split].
  - intros b. unfold open_buckets. rewrite filter_In, window_buckets_spec. reflexivity.
  - unfold open_buckets. apply List.NoDup_filter, window_buckets_NoDup.
  - destruct Hc as (_ & _ & ->).
    rewrite <- window_buckets_length.
    pose proof (filter_length_bound
                  (fun b => is_store_open (astimezone b store_tz) business_hours_map)
                  (window_buckets interval_start_utc interval_end_utc)).
    lia.
Qed.

Lemma open_minutes_conservation_witness :
  exists minutes_up minutes_down,
    calculate_store_uptime_for_period Examples.pytz_timezone 1%N "UTC"
      Examples.monday_overnight 0 (timedelta_days 7) Examples.polls_one_active
    = Ok (minutes_up, minutes_down) /\
    0 <= minutes_up /\ 0 <= minutes_down /\
    minutes_up + minutes_down
    = Z.of_nat (length (open_buckets Examples.utc Examples.monday_overnight
                          0 (timedelta_days 7))).
Proof.
  destruct (open_minutes_conservation Examples.pytz_timezone 1%N "UTC"
              Examples.utc Examples.monday_overnight 0 (timedelta_days 7)
              Examples.polls_one_active eq_refl)
    as (up & down & Hrun & Hup & Hdown & Hsum & _).
  exists up, down. auto.
Defined.

(** C7. The scan visits exactly the bucket start instants
    [start + k minutes] of the half-open window: the bucket at
    [interval_start_utc] is visited (when the window is not empty) and
    classified, the one at [interval_end_utc] is not, and the totals
    returned are the classification of the visited buckets, in order. *)
Theorem half_open_scan
    (pytz_timezone : string -> option tzinfo) (store_id : uuid)
    (store_timezone_str : string) (store_tz : tzinfo)
    (business_hours_map : gmap Z (list (Z * Z)))
    (interval_start_utc interval_end_utc : Z) (polls : list StoreStatusPoll) :
  exists l,
    scan_window store_tz business_hours_map interval_start_utc interval_end_utc polls
    = Some l /\
    log_buckets l = window_buckets interval_start_utc interval_end_utc /\
    (forall b,
       In b (log_buckets l) <->
       exists k, 0 <= k /\ b = interval_start_utc + timedelta_minutes k /\
                 b < interval_end_utc) /\
    (interval_start_utc < interval_end_utc -> head (log_buckets l) = Some interval_start_utc) /\
    ~ In interval_end_utc (log_buckets l) /\
    (forall b, In b (log_buckets l) -> interval_start_utc <= b < interval_end_utc) /\
    log_counters l
    = fold_left (fun c b => classify_minute store_tz business_hours_map polls b c)
        (log_buckets l) (0, 0) /\
    (resolve_timezone pytz_timezone store_timezone_str = Ok store_tz ->
     calculate_store_uptime_for_period pytz_timezone store_id store_timezone_str
       business_hours_map interval_start_utc interval_end_utc polls
     = Ok (log_counters l)).
Proof.
  eexists. split; [apply scan_window_run |].
  rewrite fold_step_buckets, fold_step_counters. cbn [log_buckets log_counters app].
  split; [reflexivity |].
  split; [intros b; apply window_buckets_spec |].
  split; [| split; [| split; [| split]]].
  - intros Hlt. rewrite (window_buckets_step _ _ Hlt). reflexivity.
  - intros Hin. apply window_buckets_spec in Hin as (k & _ & _ & Hlt). lia.
  - intros b Hin. apply window_buckets_spec in Hin as (k & Hk & -> & Hlt).
    unfold timedelta_minutes in *. pose proof us_per_minute_pos. nia.
  - reflexivity.
  - intros Htz. apply (calculate_as_scan pytz_timezone store_tz), Htz.
Qed.

(** ** The report *)

Lemma append_at_ok (day : Z) (x : Z * Z) (m : gmap Z (list (Z * Z))) :
  is_Some (m !! day) ->
  exists m', append_at day x m = Ok m' /\
             forall d, is_Some (m !! d) -> is_Some (m' !! d).
Proof.
  intros [l Hl]. unfold append_at. rewrite Hl.
  eexists. split; [reflexivity |].
  intros d Hd. destruct (decide (day = d)) as [-> | Hne].
  - rewrite lookup_insert_eq. eauto.
  - rewrite lookup_insert_ne by exact Hne. exact Hd.
Qed.

Lemma append_at_raises (day : Z) (x : Z * Z) (m : gmap Z (list (Z * Z))) (e : exn) :
  append_at day x m = Raise e -> e = KeyError day.
Proof.
  unfold append_at. destruct (m !! day); [discriminate |].
  intros H. injection H as <-. reflexivity.
Qed.

Lemma append_rows_ok (rows : list BusinessHour) (m : gmap Z (list (Z * Z))) :
  Forall valid_row rows ->
  (forall d, 0 <= d < 7 -> is_Some (m !! d)) ->
  exists m', append_rows rows m = Ok m'.
Proof.
  intros Hrows. revert m. induction Hrows as [| bh rows Hbh _ IH]; intros m Hm.
  - eexists. reflexivity.
  - cbn [append_rows].
    destruct (append_at_ok (models.day_of_week bh)
                (models.start_time_local bh, models.end_time_local bh) m
                (Hm _ Hbh)) as (m' & -> & Hm').
    cbn [bind]. apply IH. intros d Hd. apply Hm', Hm, Hd.
Qed.

Lemma append_rows_raises (rows : list BusinessHour) (m : gmap Z (list (Z * Z)))
    (e : exn) :
  append_rows rows m = Raise e -> exists day, e = KeyError day.
Proof.
  revert m. induction rows as [| bh rows IH]; intros m; cbn [append_rows].
  - discriminate.
  - destruct (append_at _ _ m) as [m' | e'] eqn:Hat; cbn [bind].
    + apply IH.
    + intros H. injection H as <-. eexists. eapply append_at_raises, Hat.
Qed.

Lemma empty_week_days (d : Z) : 0 <= d < 7 -> is_Some (empty_week !! d).
Proof.
  intros Hd.
  assert (Hc : d = 0 \/ d = 1 \/ d = 2 \/ d = 3 \/ d = 4 \/ d = 5 \/ d = 6) by lia.
  destruct Hc as [-> | [-> | [-> | [-> | [-> | [-> | ->]]]]]]; eexists; reflexivity.
Qed.

Lemma get_business_hours_ok (db : Session) (store_id : uuid) :
  Forall valid_row (models.query_business_hours db store_id) ->
  exists m, get_business_hours_for_store db store_id = Ok m.
Proof.
  intros Hrows.
  destruct (models.query_business_hours db store_id) as [| bh rows] eqn:Hq.
  - eexists. apply get_business_hours_no_rows, Hq.
  - unfold get_business_hours_for_store. rewrite Hq.
    apply append_rows_ok; [exact Hrows | apply empty_week_days].
Qed.

Lemma get_business_hours_raises (db : Session) (store_id : uuid) (e : exn) :
  get_business_hours_for_store db store_id = Raise e -> exists day, e = KeyError day.
Proof.
  destruct (models.query_business_hours db store_id) as [| bh rows] eqn:Hq.
  - rewrite (get_business_hours_no_rows _ _ Hq). discriminate.
  - unfold get_business_hours_for_store. rewrite Hq. apply append_rows_raises.
Qed.

Lemma resolve_timezone_unknown (pytz_timezone : string -> option tzinfo)
    (store_timezone_str : string) :
  pytz_timezone store_timezone_str = None ->
  resolve_timezone pytz_timezone store_timezone_str
  = resolve_timezone pytz_timezone DEFAULT_TIMEZONE.
Proof.
  intros Hunknown. unfold resolve_timezone. rewrite Hunknown.
  destruct (pytz_timezone DEFAULT_TIMEZONE); reflexivity.
Qed.

Lemma calculate_unknown (pytz_timezone : string -> option tzinfo)
    (store_id : uuid) (store_timezone_str : string)
    (m : gmap Z (list (Z * Z))) (start end_ : Z) (polls : list StoreStatusPoll) :
  pytz_timezone store_timezone_str = None ->
  calculate_store_uptime_for_period pytz_timezone store_id store_timezone_str
    m start end_ polls
  = calculate_store_uptime_for_period pytz_timezone store_id DEFAULT_TIMEZONE
      m start end_ polls.
Proof.
  intros Hunknown. unfold calculate_store_uptime_for_period.
  rewrite (resolve_timezone_unknown _ _ Hunknown). reflexivity.
Qed.

Lemma generate_runs (pytz_timezone : string -> option tzinfo) (db : Session)
    (store : Store) (reference_time_utc : Z) (store_tz : tzinfo)
    (m : gmap Z (list (Z * Z))) :
  get_business_hours_for_store db (models.id store) = Ok m ->
  resolve_timezone pytz_timezone (models.timezone_str store) = Ok store_tz ->
  exists last_hour last_day last_week,
    let polls :=
      models.query_polls db (models.id store)
        (reference_time_utc - timedelta_days 7
         - timedelta_hours POLL_FETCH_BUFFER_HOURS) reference_time_utc in
    calculate_store_uptime_for_period pytz_timezone (models.id store)
      (models.timezone_str store) m
      (reference_time_utc - timedelta_hours 1) reference_time_utc polls
    = Ok last_hour /\
    calculate_store_uptime_for_period pytz_timezone (models.id store)
      (models.timezone_str store) m
      (reference_time_utc - timedelta_days 1) reference_time_utc polls
    = Ok last_day /\
    calculate_store_uptime_for_period pytz_timezone (models.id store)
      (models.timezone_str store) m
      (reference_time_utc - timedelta_days 7) reference_time_utc polls
    = Ok last_week /\
    generate_report_data_for_store pytz_timezone db store reference_time_utc
    = Ok {| store_id := models.id store;
            uptime_last_hour := py_round (inject_Z (fst last_hour));
            uptime_last_day := py_round_ndigits (inject_Z (fst last_day) / 60) 2;
            uptime_last_week := py_round_ndigits (inject_Z (fst last_week) / 60) 2;
            downtime_last_hour := py_round (inject_Z (snd last_hour));
            downtime_last_day := py_round_ndigits (inject_Z (snd last_day) / 60) 2;
            downtime_last_week := py_round_ndigits (inject_Z (snd last_week) / 60) 2 |}.
Proof.
  intros Hm Htz. unfold generate_report_data_for_store. cbv zeta.
  rewrite Hm. cbn [bind].
  rewrite !(calculate_as_scan pytz_timezone store_tz _ _ _ _ _ _ Htz). cbn [bind].
  do 3 eexists. repeat split; reflexivity.
Qed.

(** C8. A timezone string that names no known zone is not an error: the
    engine computes with the default zone America/Chicago, and both the
    window totals and the report record are those of a site whose
    timezone string is the default one. *)
Theorem unknown_timezone_falls_back
    (pytz_timezone : string -> option tzinfo)
    (store_timezone_str : string) (default_tz : tzinfo)
    (Hunknown : pytz_timezone store_timezone_str = None)
    (Hdefault : pytz_timezone DEFAULT_TIMEZONE = Some default_tz) :
  DEFAULT_TIMEZONE = "America/Chicago"%string /\
  resolve_timezone pytz_timezone store_timezone_str = Ok default_tz /\
  (forall store_id m start end_ polls,
     calculate_store_uptime_for_period pytz_timezone store_id store_timezone_str
       m start end_ polls
     = calculate_store_uptime_for_period pytz_timezone store_id DEFAULT_TIMEZONE
         m start end_ polls /\
     exists minutes_up minutes_down,
       calculate_store_uptime_for_period pytz_timezone store_id store_timezone_str
         m start end_ polls
       = Ok (minutes_up, minutes_down)) /\
  (forall db store_id reference_time_utc,
     generate_report_data_for_store pytz_timezone db
       (models.mkStore store_id store_timezone_str) reference_time_utc
     = generate_report_data_for_store pytz_timezone db
         (models.mkStore store_id DEFAULT_TIMEZONE) reference_time_utc /\
     (forall zone,
        generate_report_data_for_store pytz_timezone db
          (models.mkStore store_id store_timezone_str) reference_time_utc
        <> Raise (UnknownTimeZoneError zone)) /\
     (Forall valid_row (models.query_business_hours db store_id) ->
      exists record,
        generate_report_data_for_store pytz_timezone db
          (models.mkStore store_id store_timezone_str) reference_time_utc
        = Ok record)).
Proof.
  assert (Htz : resolve_timezone pytz_timezone store_timezone_str = Ok default_tz).
  { unfold resolve_timezone. rewrite Hunknown, Hdefault. reflexivity. }
  split; [reflexivity |]. split; [exact Htz |]. split.
  - intros store_id m start end_ polls. split.
    + apply calculate_unknown, Hunknown.
    + rewrite (calculate_as_scan pytz_timezone default_tz _ _ _ _ _ _ Htz).
      destruct (fold_left _ _ _) as [up down]. exists up, down. reflexivity.
  - intros db store_id reference_time_utc. split; [| split].
    + unfold generate_report_data_for_store. cbv zeta.
      cbn [models.id models.timezone_str].
      destruct (get_business_hours_for_store db store_id) as [m | e];
        [| reflexivity].
      cbn [bind]. rewrite !(calculate_unknown _ _ _ _ _ _ _ Hunknown). reflexivity.
    + intros zone.
      destruct (get_business_hours_for_store db store_id) as [m | e] eqn:Hm.
      * destruct (generate_runs pytz_timezone db
                    (models.mkStore store_id store_timezone_str)
                    reference_time_utc default_tz m Hm Htz)
          as (h & d & w & _ & _ & _ & ->).
        discriminate.
      * unfold generate_report_data_for_store. cbv zeta. cbn [models.id]. rewrite Hm.
        cbn [bind]. apply get_business_hours_raises in Hm as [day ->]. discriminate.
    + intros Hrows.
      destruct (get_business_hours_ok db store_id Hrows) as [m Hm].
      destruct (generate_runs pytz_timezone db
                  (models.mkStore store_id store_timezone_str)
                  reference_time_utc default_tz m Hm Htz)
        as (h & d & w & _ & _ & _ & ->).
      eexists. reflexivity.
Qed.

Lemma unknown_timezone_falls_back_witness :
  generate_report_data_for_store Examples.pytz_timezone Examples.db_no_hours
    (models.mkStore 1%N "Mars/Olympus") Examples.ref_instant
  = generate_report_data_for_store Examples.pytz_timezone Examples.db_no_hours
      (models.mkStore 1%N DEFAULT_TIMEZONE) Examples.ref_instant.
Proof.
  destruct (unknown_timezone_falls_back Examples.pytz_timezone "Mars/Olympus"
              (fun _ => - timedelta_hours 6) eq_refl eq_refl)
    as (_ & _ & _ & Hgen).
  apply (Hgen Examples.db_no_hours 1%N Examples.ref_instant).
Defined.

Lemma py_round_integer (z : Z) : py_round (inject_Z z) = z.
Proof.
  unfold py_round, inject_Z. cbn [Qnum Qden].
  rewrite Z.div_1_r, Z.mod_1_r. reflexivity.
Qed.

Lemma py_round_nearest (x : Q) :
  2 * Z.abs (py_round x * Z.pos (Qden x) - Qnum x) <= Z.pos (Qden x).
Proof.
  unfold py_round.
  pose proof (Z.div_mod (Qnum x) (Z.pos (Qden x)) ltac:(lia)) as Hdm.
  pose proof (Z.mod_pos_bound (Qnum x) (Z.pos (Qden x)) ltac:(lia)) as Hr.
  set (d := Z.pos (Qden x)) in *.
  set (q := Qnum x / d) in *. set (r := Qnum x mod d) in *.
  destruct (Z.ltb_spec (2 * r) d); [nia |].
  destruct (Z.ltb_spec d (2 * r)); [nia |].
  destruct (Z.even q); nia.
Qed.

Lemma py_round_ndigits_2dp (x : Q) : rounded_2dp (py_round_ndigits x 2) x.
Proof.
  split; [reflexivity |].
  pose proof (py_round_nearest (x * inject_Z (Z.pos (Pos.pow 10 2)))) as H.
  unfold py_round_ndigits.
  set (k := py_round (x * inject_Z (Z.pos (Pos.pow 10 2)))) in *.
  destruct x as [n d].
  change (Pos.pow 10 2) with 100%positive in *.
  unfold Qle, Qabs, Qminus, Qplus, Qopp, Qmult, inject_Z in *.
  cbn [Qnum Qden] in *.
  rewrite Pos2Z.inj_mul in *. lia.
Qed.

Lemma bucket_count_exact (reference_time_utc n : Z) :
  0 <= n ->
  bucket_count (reference_time_utc - timedelta_minutes n) reference_time_utc
  = Z.to_nat n.
Proof.
  intros Hn. unfold bucket_count, timedelta_minutes.
  change us_per_minute with 60000000.
  replace (reference_time_utc - (reference_time_utc - n * 60000000) + 60000000 - 1)
    with (n * 60000000 + 59999999) by lia.
  rewrite Z.div_add_l by lia.
  change (59999999 / 60000000) with 0. rewrite Z.add_0_r. reflexivity.
Qed.

(** C6. A report is computed over three windows that end at the reference
    instant and are half-open: the last 60, 1440 and 10080 one-minute
    buckets before it.  The last-hour fields are the engine's whole
    minute counts; the last-day and last-week fields are the engine's
    minute counts divided by 60 and rounded to two decimal places. *)
Theorem report_windows_and_units
    (pytz_timezone : string -> option tzinfo) (db : Session) (store : Store)
    (reference_time_utc : Z) (store_tz : tzinfo)
    (Hrows : Forall valid_row (models.query_business_hours db (models.id store)))
    (Htz : resolve_timezone pytz_timezone (models.timezone_str store) = Ok store_tz) :
  exists m polls last_hour last_day last_week record,
    get_business_hours_for_store db (models.id store) = Ok m /\
    polls = models.query_polls db (models.id store)
              (reference_time_utc - timedelta_days 7 - timedelta_hours 1)
              reference_time_utc /\
    calculate_store_uptime_for_period pytz_timezone (models.id store)
      (models.timezone_str store) m
      (reference_time_utc - timedelta_hours 1) reference_time_utc polls
    = Ok last_hour /\
    calculate_store_uptime_for_period pytz_timezone (models.id store)
      (models.timezone_str store) m
      (reference_time_utc - timedelta_hours 24) reference_time_utc polls
    = Ok last_day /\
    calculate_store_uptime_for_period pytz_timezone (models.id store)
      (models.timezone_str store) m
      (reference_time_utc - timedelta_days 7) reference_time_utc polls
    = Ok last_week /\
    generate_report_data_for_store pytz_timezone db store reference_time_utc
    = Ok record /\
    store_id record = models.id store /\
    uptime_last_hour record = fst last_hour /\
    downtime_last_hour record = snd last_hour /\
    uptime_last_day record = py_round_ndigits (inject_Z (fst last_day) / 60) 2 /\
    downtime_last_day record = py_round_ndigits (inject_Z (snd last_day) / 60) 2 /\
    uptime_last_week record = py_round_ndigits (inject_Z (fst last_week) / 60) 2 /\
    downtime_last_week record = py_round_ndigits (inject_Z (snd last_week) / 60) 2 /\
    rounded_2dp (uptime_last_day record) (inject_Z (fst last_day) / 60) /\
    rounded_2dp (downtime_last_day record) (inject_Z (snd last_day) / 60) /\
    rounded_2dp (uptime_last_week record) (inject_Z (fst last_week) / 60) /\
    rounded_2dp (downtime_last_week record) (inject_Z (snd last_week) / 60) /\
    window_buckets (reference_time_utc - timedelta_hours 1) reference_time_utc
    = map (fun k => reference_time_utc - timedelta_hours 1 + timedelta_minutes (Z.of_nat k))
        (seq 0 (Z.to_nat 60)) /\
    window_buckets (reference_time_utc - timedelta_hours 24) reference_time_utc
    = map (fun k => reference_time_utc - timedelta_hours 24 + timedelta_minutes (Z.of_nat k))
        (seq 0 (Z.to_nat 1440)) /\
    window_buckets (reference_time_utc - timedelta_days 7) reference_time_utc
    = map (fun k => reference_time_utc - timedelta_days 7 + timedelta_minutes (Z.of_nat k))
        (seq 0 (Z.to_nat 10080)).
Proof.
  destruct (get_business_hours_ok db (models.id store) Hrows) as [m Hm].
  destruct (generate_runs pytz_timezone db store reference_time_utc store_tz m Hm Htz)
    as (h & d & w & Hh & Hd & Hw & Hgen).
  exists m. eexists. exists h, d, w. eexists.
  split; [exact Hm |]. split; [reflexivity |].
  split; [exact Hh |]. split; [exact Hd |]. split; [exact Hw |].
  split; [exact Hgen |].
  cbn [store_id uptime_last_hour downtime_last_hour uptime_last_day
       downtime_last_day uptime_last_week downtime_last_week].
  rewrite !py_round_integer.
  repeat (split; [first [reflexivity | apply py_round_ndigits_2dp] |]).
  unfold window_buckets.
  change (timedelta_hours 1) with (timedelta_minutes 60).
  change (timedelta_hours 24) with (timedelta_minutes 1440).
  change (timedelta_days 7) with (timedelta_minutes 10080).
  rewrite !bucket_count_exact by lia.
  repeat split; reflexivity.
Qed.

Lemma report_windows_and_units_witness :
  exists record,
    generate_report_data_for_store Examples.pytz_timezone Examples.db_no_hours
      (models.mkStore 1%N "UTC") Examples.ref_instant = Ok record /\
    uptime_last_hour record = 45 /\ downtime_last_hour record = 15 /\
    uptime_last_day record = (75 # 100)%Q /\
    downtime_last_week record = (16725 # 100)%Q.
Proof.
  destruct (report_windows_and_units Examples.pytz_timezone Examples.db_no_hours
              (models.mkStore 1%N "UTC") Examples.ref_instant Examples.utc
              (List.Forall_nil valid_row) eq_refl)
    as (m & polls & h & d & w & r & Hm & Hpolls & Hh & Hd & Hw & Hgen & _).
  exists r. split; [exact Hgen |].
  assert (Hr : Ok r = Ok {| store_id := 1%N; uptime_last_hour := 45;
                            uptime_last_day := (75 # 100)%Q;
                            uptime_last_week := (75 # 100)%Q;
                            downtime_last_hour := 15;
                            downtime_last_day := (2325 # 100)%Q;
                            downtime_last_week := (16725 # 100)%Q |}).
  { rewrite <- Hgen. vm_compute. reflexivity. }
  injection Hr as ->. repeat split; reflexivity.
Defined.

(** ** The cost of a window scan *)

Lemma status_scan_cost_le (t : Z) (polls : list StoreStatusPoll) :
  (status_scan_cost t polls <= length polls)%nat.
Proof.
  induction polls as [| p rest IH]; cbn [status_scan_cost length]; [lia |].
  destruct (models.timestamp_utc p <=? t); lia.
Qed.

Lemma status_scan_cost_all (t : Z) (polls : list StoreStatusPoll) :
  Forall (fun p => models.timestamp_utc p <= t) polls ->
  status_scan_cost t polls = length polls.
Proof.
  induction 1 as [| p rest Hp _ IH]; cbn [status_scan_cost length]; [reflexivity |].
  destruct (Z.leb_spec (models.timestamp_utc p) t); lia.
Qed.

Lemma status_scan_cost_sorted (t : Z) (polls : list StoreStatusPoll) :
  nondecreasing polls = true ->
  status_scan_cost t polls
  = Nat.min (length polls) (S (length (at_or_before t polls))).
Proof.
  induction polls as [| p rest IH]; intros Hs; [reflexivity |].
  unfold at_or_before in *. cbn [status_scan_cost length List.filter].
  destruct (Z.leb_spec (models.timestamp_utc p) t) as [Hle | Hgt].
  - rewrite (IH (nondecreasing_tail _ _ Hs)). cbn [length]. lia.
  - pose proof (nondecreasing_head_le p rest Hs) as Hall.
    assert (Hnone : at_or_before t rest = []).
    { apply at_or_before_none. eapply Forall_impl; [exact Hall |]. cbn. intros; lia. }
    unfold at_or_before in Hnone. rewrite Hnone. cbn [length]. lia.
Qed.

Lemma window_comparisons_sum (store_tz : tzinfo) (m : gmap Z (list (Z * Z)))
    (start end_ : Z) (polls : list StoreStatusPoll) :
  window_comparisons store_tz m start end_ polls
  = list_sum (map (fun b => status_scan_cost b polls)
                (open_buckets store_tz m start end_)).
Proof.
  unfold window_comparisons. rewrite scan_window_run, fold_step_comparisons.
  reflexivity.
Qed.

Lemma list_sum_map_le {A : Type} (f : A -> nat) (bound : nat) (l : list A) :
  (forall a, In a l -> (f a <= bound)%nat) ->
  (list_sum (map f l) <= bound * length l)%nat.
Proof.
  induction l as [| a l IH]; intros Hf; cbn [map list_sum length].
  - cbn. lia.
  - change (list_sum (f a :: map f l)) with (f a + list_sum (map f l))%nat.
    pose proof (Hf a (or_introl eq_refl)).
    assert (list_sum (map f l) <= bound * length l)%nat
      by (apply IH; intros b Hb; apply Hf; right; exact Hb).
    nia.
Qed.

Lemma list_sum_map_const {A : Type} (f : A -> nat) (c : nat) (l : list A) :
  (forall a, In a l -> f a = c) ->
  list_sum (map f l) = (c * length l)%nat.
Proof.
  induction l as [| a l IH]; intros Hf; cbn [map length].
  - cbn. lia.
  - change (list_sum (f a :: map f l)) with (f a + list_sum (map f l))%nat.
    rewrite (Hf a (or_introl eq_refl)), IH by (intros b Hb; apply Hf; right; exact Hb).
    lia.
Qed.

Lemma open_buckets_after_start (store_tz : tzinfo) (m : gmap Z (list (Z * Z)))
    (start end_ b : Z) :
  In b (open_buckets store_tz m start end_) -> start <= b.
Proof.
  unfold open_buckets. rewrite filter_In, window_buckets_spec.
  intros [(k & Hk & -> & _) _]. unfold timedelta_minutes.
  pose proof us_per_minute_pos. nia.
Qed.

Lemma window_comparisons_all_before (store_tz : tzinfo)
    (m : gmap Z (list (Z * Z))) (start end_ : Z) (polls : list StoreStatusPoll) :
  Forall (fun p => models.timestamp_utc p <= start) polls ->
  window_comparisons store_tz m start end_ polls
  = (length polls * length (open_buckets store_tz m start end_))%nat.
Proof.
  intros Hall. rewrite window_comparisons_sum.
  apply list_sum_map_const. intros b Hb.
  apply status_scan_cost_all. eapply Forall_impl; [exact Hall |].
  cbn. intros p Hp. apply open_buckets_after_start in Hb. lia.
Qed.

Lemma open_buckets_always_open (store_tz : tzinfo) (start end_ : Z) :
  length (open_buckets store_tz Examples.always_open start end_)
  = bucket_count start end_.
Proof.
  unfold open_buckets. rewrite <- window_buckets_length. f_equal.
  induction (window_buckets start end_) as [| b l IH]; [reflexivity |].
  cbn [List.filter]. rewrite is_store_open_always_open, IH. reflexivity.
Qed.

Lemma nondecreasing_repeat (p : StoreStatusPoll) (n : nat) :
  nondecreasing (List.repeat p n) = true.
Proof.
  induction n as [| n IH]; [reflexivity |].
  cbn [List.repeat nondecreasing]. destruct n as [| n]; [reflexivity |].
  cbn [List.repeat] in *. rewrite IH, Z.leb_refl. reflexivity.
Qed.

(** The claim C9 fails on the code.  [get_status_at_time] keeps no
    cursor: with three samples before a window of four open minutes each
    of the four queries examines all three samples, twelve in all, where a
    single forward cursor examines at most seven; and no constant
    multiple of the cursor's budget bounds the samples examined. *)
Lemma single_cursor_refuted :
  status_scan_cost 0 Examples.polls_before_window = 3%nat /\
  status_scan_cost (timedelta_minutes 1) Examples.polls_before_window = 3%nat /\
  window_comparisons Examples.utc Examples.always_open 0 (timedelta_minutes 4)
    Examples.polls_before_window = 12%nat /\
  cursor_budget 0 (timedelta_minutes 4) Examples.polls_before_window = 7%nat /\
  ~ (exists c : nat,
       forall polls start end_,
         nondecreasing polls = true ->
         (window_comparisons Examples.utc Examples.always_open start end_ polls
          <= c * cursor_budget start end_ polls)%nat).
Proof.
  split; [reflexivity |]. split; [reflexivity |].
  split; [vm_compute; reflexivity |]. split; [reflexivity |].
  intros [c Hc].
  set (n := S (2 * c)).
  specialize (Hc (List.repeat (models.mkPoll (-1) "active") n)
                0 (timedelta_minutes (Z.of_nat n))
                (nondecreasing_repeat _ _)).
  rewrite window_comparisons_all_before in Hc.
  - rewrite open_buckets_always_open in Hc. unfold cursor_budget in Hc.
    replace (bucket_count 0 (timedelta_minutes (Z.of_nat n))) with n in Hc.
    + rewrite repeat_length in Hc. subst n. nia.
    + replace 0 with (timedelta_minutes (Z.of_nat n) - timedelta_minutes (Z.of_nat n))
        at 1 by lia.
      rewrite bucket_count_exact by lia. lia.
  - apply Forall_forall. intros p Hp. apply list_elem_of_In, repeat_spec in Hp.
    subst p. cbn. lia.
Qed.

(** C9 as amended.  Every query scans the sample list from its start and
    examines each sample up to and including the first one after the
    target, all of them when there is none: on a non-decreasing list
    that is the smaller of the list length and one more than the number of
    samples at or before the target.  Over a window the samples examined
    are the sum of that count over the open buckets, at most
    samples x open minutes, and exactly that much when every sample is at
    or before the window start.  Each query returns what a full scan of
    the list returns. *)
Theorem rescan_from_start (store_tz : tzinfo)
    (business_hours_map : gmap Z (list (Z * Z)))
    (interval_start_utc interval_end_utc : Z) (polls : list StoreStatusPoll) :
  (forall t, (status_scan_cost t polls <= length polls)%nat) /\
  (forall t, nondecreasing polls = true ->
     status_scan_cost t polls
     = Nat.min (length polls) (S (length (at_or_before t polls)))) /\
  window_comparisons store_tz business_hours_map
    interval_start_utc interval_end_utc polls
  = list_sum (map (fun b => status_scan_cost b polls)
                (open_buckets store_tz business_hours_map
                   interval_start_utc interval_end_utc)) /\
  (window_comparisons store_tz business_hours_map
     interval_start_utc interval_end_utc polls
   <= length polls
      * length (open_buckets store_tz business_hours_map
                  interval_start_utc interval_end_utc))%nat /\
  (Forall (fun p => models.timestamp_utc p <= interval_start_utc) polls ->
   window_comparisons store_tz business_hours_map
     interval_start_utc interval_end_utc polls
   = (length polls
      * length (open_buckets store_tz business_hours_map
                  interval_start_utc interval_end_utc))%nat) /\
  (forall t, nondecreasing polls = true ->
     get_status_at_time t polls = locf t polls).
Proof.
  split; [intros t; apply status_scan_cost_le |].
  split; [intros t; apply status_scan_cost_sorted |].
  split; [apply window_comparisons_sum |].
  split; [| split].
  - rewrite window_comparisons_sum. apply list_sum_map_le.
    intros b _. apply status_scan_cost_le.
  - apply window_comparisons_all_before.
  - intros t Hs. apply status_scan_locf, Hs.
Qed.

(** * Further properties of the code *)

(** ** The business hours map *)

Lemma append_rows_lookup (rows : list BusinessHour) (m m' : gmap Z (list (Z * Z))) :
  append_rows rows m = Ok m' ->
  forall d, m' !! d = (fun l => l ++ intervals_of_day rows d) <$> (m !! d).
Proof.
  revert m. induction rows as [| bh rows IH]; intros m Hrun d.
  - cbn in Hrun. injection Hrun as <-. unfold intervals_of_day. cbn.
    destruct (m !! d); cbn; [rewrite app_nil_r |]; reflexivity.
  - cbn [append_rows] in Hrun. unfold append_at in Hrun.
    destruct (m !! models.day_of_week bh) as [l |] eqn:Hl; [| discriminate].
    cbn [bind] in Hrun. rewrite (IH _ Hrun d).
    unfold intervals_of_day. cbn [List.filter].
    destruct (Z.eqb_spec (models.day_of_week bh) d) as [Heq | Hne].
    + rewrite <- Heq, lookup_insert_eq, Hl. cbn. rewrite <- app_assoc. reflexivity.
    + rewrite lookup_insert_ne by exact Hne. reflexivity.
Qed.

Lemma empty_week_lookup (d : Z) :
  empty_week !! d = if (0 <=? d) && (d <? 7) then Some [] else None.
Proof.
  destruct (Z.leb_spec 0 d), (Z.ltb_spec d 7); cbn [andb].
  - assert (Hc : d = 0 \/ d = 1 \/ d = 2 \/ d = 3 \/ d = 4 \/ d = 5 \/ d = 6) by lia.
    destruct Hc as [-> | [-> | [-> | [-> | [-> | [-> | ->]]]]]]; reflexivity.
  - unfold empty_week. apply not_elem_of_list_to_map_1. cbn.
    rewrite !elem_of_cons, elem_of_nil. lia.
  - unfold empty_week. apply not_elem_of_list_to_map_1. cbn.
    rewrite !elem_of_cons, elem_of_nil. lia.
  - lia.
Qed.

Lemma business_hours_lookup (db : Session) (store_id : uuid)
    (m : gmap Z (list (Z * Z))) (d : Z) :
  models.query_business_hours db store_id <> [] ->
  get_business_hours_for_store db store_id = Ok m ->
  m !! d = if (0 <=? d) && (d <? 7)
           then Some (intervals_of_day (models.query_business_hours db store_id) d)
           else None.
Proof.
  intros Hne Hrun. unfold get_business_hours_for_store in Hrun.
  destruct (models.query_business_hours db store_id) as [| bh rows] eqn:Hq;
    [contradiction |].
  rewrite (append_rows_lookup _ _ _ Hrun d), empty_week_lookup.
  destruct ((0 <=? d) && (d <? 7)); reflexivity.
Qed.

(** X1. With at least one row, all of them for days 0..6, the map holds for
    each day 0..6 exactly the (start, end) pairs of the rows of that day, in
    row order, and no other key. *)
Theorem business_hours_map_of_rows (db : Session) (store_id : uuid)
    (Hne : models.query_business_hours db store_id <> [])
    (Hrows : Forall valid_row (models.query_business_hours db store_id)) :
  exists m,
    get_business_hours_for_store db store_id = Ok m /\
    (forall d, 0 <= d < 7 ->
       m !! d = Some (intervals_of_day (models.query_business_hours db store_id) d)) /\
    (forall d, ~ 0 <= d < 7 -> m !! d = None).
Proof.
  destruct (get_business_hours_ok db store_id Hrows) as [m Hm].
  exists m. split; [exact Hm |]. split.
  - intros d Hd. rewrite (business_hours_lookup db store_id m d Hne Hm).
    destruct (Z.leb_spec 0 d), (Z.ltb_spec d 7); cbn; (reflexivity || lia).
  - intros d Hd. rewrite (business_hours_lookup db store_id m d Hne Hm).
    destruct (Z.leb_spec 0 d), (Z.ltb_spec d 7); cbn; (reflexivity || lia).
Qed.

Lemma business_hours_map_of_rows_witness :
  exists m,
    get_business_hours_for_store Examples.db_monday_overnight 1%N = Ok m /\
    m !! 0 = Some [(mk_time 22 0 0 0, mk_time 2 0 0 0)] /\
    m !! 1 = Some [] /\ m !! 7 = None.
Proof.
  destruct (business_hours_map_of_rows Examples.db_monday_overnight 1%N)
    as (m & Hm & Hin & Hout).
  - discriminate.
  - repeat constructor; unfold valid_row; cbn; lia.
  - exists m. split; [exact Hm |].
    split; [apply (Hin 0); lia |]. split; [apply (Hin 1); lia | apply Hout; lia].
Defined.

Lemma append_rows_first_bad (good rest : list BusinessHour) (bad : BusinessHour)
    (m : gmap Z (list (Z * Z))) :
  Forall valid_row good -> ~ valid_row bad ->
  (forall d, m !! d = None <-> ~ 0 <= d < 7) ->
  append_rows (good ++ bad :: rest) m = Raise (KeyError (models.day_of_week bad)).
Proof.
  intros Hgood Hbad. revert m.
  induction Hgood as [| bh good Hbh _ IH]; intros m Hm; cbn [app append_rows].
  - unfold append_at.
    destruct (m !! models.day_of_week bad) eqn:Hl; [| reflexivity].
    exfalso. apply Hbad. unfold valid_row.
    destruct (decide (0 <= models.day_of_week bad < 7)) as [H | H]; [exact H |].
    apply Hm in H. congruence.
  - unfold append_at.
    destruct (m !! models.day_of_week bh) as [l |] eqn:Hl.
    + cbn [bind]. apply IH. intros d.
      destruct (decide (models.day_of_week bh = d)) as [<- | Hne].
      * rewrite lookup_insert_eq. split; [discriminate |].
        intros H. exfalso. apply H, Hbh.
      * rewrite lookup_insert_ne by exact Hne. apply Hm.
    + exfalso. apply Hm in Hl. apply Hl, Hbh.
Qed.

Lemma empty_week_keys (d : Z) : empty_week !! d = None <-> ~ 0 <= d < 7.
Proof.
  rewrite empty_week_lookup.
  destruct (Z.leb_spec 0 d), (Z.ltb_spec d 7); cbn; split;
    intros; (discriminate || lia || reflexivity).
Qed.

(** X2. A row whose day is outside 0..6 makes
    [get_business_hours_for_store] raise [KeyError] with the day of the
    first such row; the rows before it do not matter, and nothing is
    returned. *)
Theorem business_hours_bad_day (db : Session) (store_id : uuid)
    (good rest : list BusinessHour) (bad : BusinessHour)
    (Hq : models.query_business_hours db store_id = good ++ bad :: rest)
    (Hgood : Forall valid_row good) (Hbad : ~ valid_row bad) :
  get_business_hours_for_store db store_id
  = Raise (KeyError (models.day_of_week bad)).
Proof.
  unfold get_business_hours_for_store. rewrite Hq.
  destruct (good ++ bad :: rest) as [| bh rows] eqn:Hrows.
  - destruct good; discriminate.
  - rewrite <- Hrows.
    apply append_rows_first_bad; [exact Hgood | exact Hbad | apply empty_week_keys].
Qed.

Lemma business_hours_bad_day_witness :
  get_business_hours_for_store
    {| models.query_business_hours := fun _ =>
         Examples.monday_overnight_rows
         ++ [models.mkBusinessHour 7 (mk_time 9 0 0 0) (mk_time 17 0 0 0)];
       models.query_polls := fun _ _ _ => [] |} 1%N
  = Raise (KeyError 7).
Proof.
  apply (business_hours_bad_day _ 1%N Examples.monday_overnight_rows []
           (models.mkBusinessHour 7 (mk_time 9 0 0 0) (mk_time 17 0 0 0))).
  - reflexivity.
  - repeat constructor; unfold valid_row; cbn; lia.
  - unfold valid_row. cbn. lia.
Defined.

(** ** The schedule as a disjunction over intervals *)

Lemma open_today_spec (t : Z) (intervals : list (Z * Z)) :
  open_today t intervals = true <->
  exists interval, In interval intervals /\ covers_today t interval.
Proof.
  induction intervals as [| [s e] rest IH]; cbn [open_today].
  - split; [discriminate | intros (iv & [] & _)].
  - destruct ((s =? time_min) && (e =? time_max)) eqn:Hall.
    + split; [intros _ | reflexivity].
      apply andb_true_iff in Hall as [Hs%Z.eqb_eq He%Z.eqb_eq].
      exists (s, e). split; [left; reflexivity | left; auto].
    + assert (Hnot : ~ (s = time_min /\ e = time_max)).
      { intros [-> ->]. discriminate. }
      destruct (Z.leb_spec s e) as [Hse | Hes].
      * destruct (Z.leb_spec s t) as [Hst | Hts]; cbn [andb].
        -- destruct (Z.ltb_spec t e) as [Hte | Het].
           ++ split; [intros _ | reflexivity].
              exists (s, e). split; [left; reflexivity | right; left; lia].
           ++ rewrite IH. split.
              ** intros (iv & Hin & Hc). exists iv. split; [right; exact Hin | exact Hc].
              ** intros (iv & [<- | Hin] & Hc); [| eauto].
                 cbn in Hc. exfalso. destruct Hc as [H | [H | H]]; [tauto | lia | lia].
        -- rewrite IH. split.
           ++ intros (iv & Hin & Hc). exists iv. split; [right; exact Hin | exact Hc].
           ++ intros (iv & [<- | Hin] & Hc); [| eauto].
              cbn in Hc. exfalso. destruct Hc as [H | [H | H]]; [tauto | lia | lia].
      * destruct (Z.leb_spec s t) as [Hst | Hts].
        -- split; [intros _ | reflexivity].
           exists (s, e). split; [left; reflexivity | right; right; lia].
        -- rewrite IH. split.
           ++ intros (iv & Hin & Hc). exists iv. split; [right; exact Hin | exact Hc].
           ++ intros (iv & [<- | Hin] & Hc); [| eauto].
              cbn in Hc. exfalso. destruct Hc as [H | [H | H]]; [tauto | lia | lia].
Qed.

Lemma open_from_prev_day_spec (t : Z) (intervals : list (Z * Z)) :
  open_from_prev_day t intervals = true <->
  exists interval, In interval intervals /\ covers_after_midnight t interval.
Proof.
  induction intervals as [| [s e] rest IH]; cbn [open_from_prev_day].
  - split; [discriminate | intros (iv & [] & _)].
  - rewrite Z.gtb_ltb.
    destruct (Z.ltb_spec e s) as [Hes | Hse].
    + destruct (Z.ltb_spec t e) as [Hte | Het].
      * split; [intros _ | reflexivity].
        exists (s, e). split; [left; reflexivity | cbn; lia].
      * rewrite IH. split.
        -- intros (iv & Hin & Hc). exists iv. split; [right; exact Hin | exact Hc].
        -- intros (iv & [<- | Hin] & Hc); [cbn in Hc; lia | eauto].
    + rewrite IH. split.
      * intros (iv & Hin & Hc). exists iv. split; [right; exact Hin | exact Hc].
      * intros (iv & [<- | Hin] & Hc); [cbn in Hc; lia | eauto].
Qed.

Lemma is_store_open_spec (local_dt : Z) (m : gmap Z (list (Z * Z))) :
  is_store_open local_dt m = true <->
  (exists interval,
     In interval (default [] (m !! weekday local_dt)) /\
     covers_today (time_of local_dt) interval) \/
  (exists interval,
     In interval (default [] (m !! ((weekday local_dt - 1 + 7) mod 7))) /\
     covers_after_midnight (time_of local_dt) interval).
Proof.
  rewrite is_store_open_fields, orb_true_iff, open_today_spec,
    open_from_prev_day_spec.
  reflexivity.
Qed.

(** X3. [is_store_open] is the disjunction over the listed intervals: a
    local datetime is open exactly when some interval of its weekday is
    the whole-day pair, or has start <= end and start <= time < end, or
    has start > end and start <= time, or when some interval of the
    previous weekday has start > end and time < end.  Intervals are never
    merged or rejected, and nothing else opens an instant. *)
Theorem is_store_open_any_interval (local_dt : Z) (m : gmap Z (list (Z * Z))) :
  is_store_open local_dt m = true <->
  (exists start_time end_time,
     In (start_time, end_time) (default [] (m !! weekday local_dt)) /\
     ((start_time = time_min /\ end_time = time_max) \/
      (start_time <= end_time /\ start_time <= time_of local_dt < end_time) \/
      (end_time < start_time /\ start_time <= time_of local_dt))) \/
  (exists start_time end_time,
     In (start_time, end_time)
        (default [] (m !! ((weekday local_dt - 1 + 7) mod 7))) /\
     end_time < start_time /\ time_of local_dt < end_time).
Proof.
  rewrite is_store_open_spec. split.
  - intros [([s e] & Hin & Hc) | ([s e] & Hin & Hc)];
      [left | right]; exists s, e; auto.
  - intros [(s & e & Hin & Hc) | (s & e & Hin & Hc)];
      [left | right]; exists (s, e); auto.
Qed.

Lemma prev_day_range (d : Z) : 0 <= (d - 1 + 7) mod 7 < 7.
Proof. apply Z.mod_pos_bound. lia. Qed.

Lemma intervals_of_day_In (rows : list BusinessHour) (d : Z) (interval : Z * Z) :
  In interval (intervals_of_day rows d) <->
  exists bh, In bh rows /\ models.day_of_week bh = d /\
             interval = (models.start_time_local bh, models.end_time_local bh).
Proof.
  unfold intervals_of_day. rewrite in_map_iff. split.
  - intros (bh & <- & Hin). apply filter_In in Hin as [Hin Hd].
    exists bh. split; [exact Hin |]. split; [apply Z.eqb_eq, Hd | reflexivity].
  - intros (bh & Hin & Hd & ->). exists bh. split; [reflexivity |].
    apply filter_In. split; [exact Hin | apply Z.eqb_eq, Hd].
Qed.

(** On the map built from a non-empty list of rows. *)
Lemma is_store_open_rows (db : Session) (store_id : uuid)
    (m : gmap Z (list (Z * Z))) (local_dt : Z) :
  models.query_business_hours db store_id <> [] ->
  get_business_hours_for_store db store_id = Ok m ->
  is_store_open local_dt m = true <->
  (exists bh, In bh (models.query_business_hours db store_id) /\
     models.day_of_week bh = weekday local_dt /\
     covers_today (time_of local_dt)
       (models.start_time_local bh, models.end_time_local bh)) \/
  (exists bh, In bh (models.query_business_hours db store_id) /\
     models.day_of_week bh = (weekday local_dt - 1 + 7) mod 7 /\
     covers_after_midnight (time_of local_dt)
       (models.start_time_local bh, models.end_time_local bh)).
Proof.
  intros Hne Hm. rewrite is_store_open_spec.
  rewrite !(business_hours_lookup db store_id m _ Hne Hm).
  pose proof (weekday_range local_dt) as Hw.
  pose proof (prev_day_range (weekday local_dt)) as Hp.
  destruct (Z.leb_spec 0 (weekday local_dt)), (Z.ltb_spec (weekday local_dt) 7);
    try lia.
  destruct (Z.leb_spec 0 ((weekday local_dt - 1 + 7) mod 7)),
    (Z.ltb_spec ((weekday local_dt - 1 + 7) mod 7) 7); try lia.
  cbn [andb default option_map from_option].
  split.
  - intros [(iv & Hin & Hc) | (iv & Hin & Hc)];
      apply intervals_of_day_In in Hin as (bh & Hin & Hd & ->);
      [left | right]; exists bh; auto.
  - intros [(bh & Hin & Hd & Hc) | (bh & Hin & Hd & Hc)]; [left | right];
      (eexists; split; [apply intervals_of_day_In; exists bh; eauto | exact Hc]).
Qed.




(** X5. Once a site has at least one row, further rows can only open more
    instants: if every row of a non-empty list is among the rows of a
    second list, every local datetime open under the first is open under
    the second.  (From no rows at all the site is open always, so the
    first row does close instants.) *)
Theorem more_rows_open_more (db1 db2 : Session) (store_id : uuid)
    (Hne : models.query_business_hours db1 store_id <> [])
    (Hincl : forall bh, In bh (models.query_business_hours db1 store_id) ->
                        In bh (models.query_business_hours db2 store_id))
    (Hrows : Forall valid_row (models.query_business_hours db2 store_id)) :
  exists m1 m2,
    get_business_hours_for_store db1 store_id = Ok m1 /\
    get_business_hours_for_store db2 store_id = Ok m2 /\
    forall local_dt,
      is_store_open local_dt m1 = true -> is_store_open local_dt m2 = true.
Proof.
  assert (Hrows1 : Forall valid_row (models.query_business_hours db1 store_id)).
  { rewrite List.Forall_forall in *. intros bh Hin. apply Hrows, Hincl, Hin. }
  destruct (get_business_hours_ok db1 store_id Hrows1) as [m1 Hm1].
  destruct (get_business_hours_ok db2 store_id Hrows) as [m2 Hm2].
  exists m1, m2. split; [exact Hm1 |]. split; [exact Hm2 |].
  intros local_dt.
  assert (Hne2 : models.query_business_hours db2 store_id <> []).
  { destruct (models.query_business_hours db1 store_id) as [| bh rows];
      [contradiction |].
    intros H2. specialize (Hincl bh (or_introl eq_refl)). rewrite H2 in Hincl.
    contradiction. }
  rewrite (is_store_open_rows db1 store_id m1 local_dt Hne Hm1).
  rewrite (is_store_open_rows db2 store_id m2 local_dt Hne2 Hm2).
  intros [(x & Hin & H) | (x & Hin & H)]; [left | right]; exists x; auto.
Qed.

Lemma more_rows_open_more_witness :
  exists m1 m2,
    get_business_hours_for_store Examples.db_monday_overnight 1%N = Ok m1 /\
    get_business_hours_for_store
      {| models.query_business_hours := fun _ =>
           models.mkBusinessHour 2 (mk_time 9 0 0 0) (mk_time 17 0 0 0)
           :: Examples.monday_overnight_rows;
         models.query_polls := fun _ _ _ => [] |} 1%N = Ok m2 /\
    forall local_dt,
      is_store_open local_dt m1 = true -> is_store_open local_dt m2 = true.
Proof.
  apply (more_rows_open_more Examples.db_monday_overnight _ 1%N).
  - discriminate.
  - intros bh Hin. right. exact Hin.
  - repeat constructor; unfold valid_row; cbn; lia.
Defined.

(** ** The status scan on any list *)

Lemma status_scan_cases (t : Z) (polls : list StoreStatusPoll) (d : string) :
  status_scan t polls d = d \/
  exists p, In p polls /\ models.timestamp_utc p <= t /\
            status_scan t polls d = models.status p.
Proof.
  revert d. induction polls as [| q rest IH]; intros d; cbn [status_scan].
  - left. reflexivity.
  - destruct (Z.leb_spec (models.timestamp_utc q) t) as [Hle | Hgt];
      [| left; reflexivity].
    right. destruct (IH (models.status q)) as [-> | (p & Hin & Hp & ->)].
    + exists q. split; [left; reflexivity | split; [exact Hle | reflexivity]].
    + exists p. split; [right; exact Hin | split; [exact Hp | reflexivity]].
Qed.

Lemma status_scan_before_first (t : Z) (polls : list StoreStatusPoll) (d : string) :
  (forall p, head polls = Some p -> t < models.timestamp_utc p) ->
  status_scan t polls d = d.
Proof.
  destruct polls as [| q rest]; intros Hfirst; cbn [status_scan]; [reflexivity |].
  specialize (Hfirst q eq_refl).
  destruct (Z.leb_spec (models.timestamp_utc q) t); [lia | reflexivity].
Qed.

Lemma status_scan_from_first (t : Z) (polls : list StoreStatusPoll) (d : string)
    (first : StoreStatusPoll) :
  head polls = Some first -> models.timestamp_utc first <= t ->
  exists p, In p polls /\ models.timestamp_utc p <= t /\
            status_scan t polls d = models.status p.
Proof.
  destruct polls as [| q rest]; [discriminate |].
  intros Hhead Hle. injection Hhead as ->. cbn [status_scan].
  destruct (Z.leb_spec (models.timestamp_utc first) t); [| lia].
  destruct (status_scan_cases t rest (models.status first))
    as [-> | (p & Hin & Hp & ->)].
  - exists first. split; [left; reflexivity | split; [exact Hle | reflexivity]].
  - exists p. split; [right; exact Hin | split; [exact Hp | reflexivity]].
Qed.

(** X6. [get_status_at_time] never invents a status: the result is the
    default 'inactive', or the status of a listed sample whose instant is
    at or before the target; when the first listed sample is at or before
    the target it is the latter. *)
Theorem status_is_default_or_listed (t : Z) (polls : list StoreStatusPoll) :
  (get_status_at_time t polls = DEFAULT_STORE_STATUS \/
   exists p, In p polls /\ models.timestamp_utc p <= t /\
             get_status_at_time t polls = models.status p) /\
  (forall first,
     head polls = Some first -> models.timestamp_utc first <= t ->
     exists p, In p polls /\ models.timestamp_utc p <= t /\
               get_status_at_time t polls = models.status p) /\
  DEFAULT_STORE_STATUS = "inactive"%string.
Proof.
  split; [apply status_scan_cases |].
  split; [| reflexivity].
  intros first Hhead Hle. eapply status_scan_from_first; eassumption.
Qed.

(** X7. The scan stops at the first sample after the target: when every
    sample of a prefix is at or before the target and the next one is
    after it, nothing listed behind that sample affects the result, even
    a sample at or before the target. *)
Theorem scan_stops_at_first_later_sample (t : Z)
    (before behind : list StoreStatusPoll) (later : StoreStatusPoll)
    (Hbefore : Forall (fun p => models.timestamp_utc p <= t) before)
    (Hlater : t < models.timestamp_utc later) :
  get_status_at_time t (before ++ later :: behind) = get_status_at_time t before.
Proof.
  unfold get_status_at_time.
  rewrite (status_scan_split t before (later :: behind)).
  - rewrite <- (app_nil_r before) at 2.
    rewrite (status_scan_split t before []); [reflexivity | exact Hbefore |].
    intros q Hq. discriminate.
  - exact Hbefore.
  - intros q Hq. injection Hq as <-. exact Hlater.
Qed.

Lemma scan_stops_at_first_later_sample_witness :
  get_status_at_time 100
    ([models.mkPoll 60 "active"] ++ models.mkPoll 500 "inactive"
       :: [models.mkPoll 70 "inactive"])
  = get_status_at_time 100 [models.mkPoll 60 "active"].
Proof.
  apply (scan_stops_at_first_later_sample 100 [models.mkPoll 60 "active"]
           [models.mkPoll 70 "inactive"] (models.mkPoll 500 "inactive")).
  - repeat constructor; cbn; lia.
  - cbn. lia.
Defined.

(** ** The totals in closed form *)

Lemma window_buckets_split (end_ : Z) (n : nat) (start : Z) :
  start + timedelta_minutes (Z.of_nat n) <= end_ ->
  window_buckets start end_
  = window_buckets start (start + timedelta_minutes (Z.of_nat n))
    ++ window_buckets (start + timedelta_minutes (Z.of_nat n)) end_.
Proof.
  revert start. induction n as [| n IH]; intros start Hle.
  - replace (start + timedelta_minutes (Z.of_nat 0)) with start
      by (unfold timedelta_minutes; lia).
    rewrite (window_buckets_nil start start) by lia. reflexivity.
  - assert (Hmid : start + timedelta_minutes (Z.of_nat (S n))
                   = start + timedelta_minutes 1 + timedelta_minutes (Z.of_nat n))
      by (unfold timedelta_minutes; lia).
    assert (Hpos : 0 < timedelta_minutes 1) by reflexivity.
    assert (Hnn : 0 <= timedelta_minutes (Z.of_nat n))
      by (unfold timedelta_minutes; pose proof us_per_minute_pos; nia).
    rewrite Hmid in *.
    rewrite (window_buckets_step start end_) by lia.
    rewrite (window_buckets_step start
               (start + timedelta_minutes 1 + timedelta_minutes (Z.of_nat n)))
      by lia.
    rewrite (IH (start + timedelta_minutes 1)) by lia. reflexivity.
Qed.

Section Totals.

Variable pytz_timezone : string -> option tzinfo.
Variable store_tz : tzinfo.
Variable business_hours_map : gmap Z (list (Z * Z)).
Variable polls : list StoreStatusPoll.

Lemma fold_classify_exact (bs : list Z) (up down : Z) :
  fold_left (fun c b => classify_minute store_tz business_hours_map polls b c)
    bs (up, down)
  = (up + Z.of_nat (length (List.filter (is_active polls)
                              (List.filter
                                 (fun b => is_store_open (astimezone b store_tz)
                                             business_hours_map) bs))),
     down + Z.of_nat (length (List.filter (fun b => negb (is_active polls b))
                                (List.filter
                                   (fun b => is_store_open (astimezone b store_tz)
                                               business_hours_map) bs)))).
Proof.
  revert up down. induction bs as [| b bs IH]; intros up down;
    cbn [fold_left List.filter].
  - cbn. f_equal; lia.
  - unfold classify_minute at 2.
    destruct (is_store_open (astimezone b store_tz) business_hours_map).
    + cbn [List.filter].
      change (String.eqb (get_status_at_time b polls) "active")
        with (is_active polls b).
      destruct (is_active polls b); rewrite IH; cbn [negb length]; f_equal; lia.
    + apply IH.
Qed.

Lemma calculate_closed_form (store_id : uuid) (store_timezone_str : string)
    (start end_ : Z) :
  resolve_timezone pytz_timezone store_timezone_str = Ok store_tz ->
  calculate_store_uptime_for_period pytz_timezone store_id store_timezone_str
    business_hours_map start end_ polls
  = Ok (Z.of_nat (length (up_buckets store_tz business_hours_map polls start end_)),
        Z.of_nat (length (down_buckets store_tz business_hours_map polls start end_))).
Proof.
  intros Htz.
  rewrite (calculate_as_scan pytz_timezone store_tz _ _ _ _ _ _ Htz).
  rewrite fold_classify_exact. reflexivity.
Qed.

Lemma up_buckets_split (start end_ : Z) (n : nat) :
  start + timedelta_minutes (Z.of_nat n) <= end_ ->
  up_buckets store_tz business_hours_map polls start end_
  = up_buckets store_tz business_hours_map polls start
      (start + timedelta_minutes (Z.of_nat n))
    ++ up_buckets store_tz business_hours_map polls
         (start + timedelta_minutes (Z.of_nat n)) end_.
Proof.
  intros Hle. unfold up_buckets, open_buckets.
  rewrite (window_buckets_split end_ n start Hle), !List.filter_app. reflexivity.
Qed.

Lemma down_buckets_split (start end_ : Z) (n : nat) :
  start + timedelta_minutes (Z.of_nat n) <= end_ ->
  down_buckets store_tz business_hours_map polls start end_
  = down_buckets store_tz business_hours_map polls start
      (start + timedelta_minutes (Z.of_nat n))
    ++ down_buckets store_tz business_hours_map polls
         (start + timedelta_minutes (Z.of_nat n)) end_.
Proof.
  intros Hle. unfold down_buckets, open_buckets.
  rewrite (window_buckets_split end_ n start Hle), !List.filter_app. reflexivity.
Qed.

Lemma up_down_partition (start end_ : Z) :
  (length (up_buckets store_tz business_hours_map polls start end_)
   + length (down_buckets store_tz business_hours_map polls start end_)
   = length (open_buckets store_tz business_hours_map start end_))%nat.
Proof.
  unfold up_buckets, down_buckets.
  induction (open_buckets store_tz business_hours_map start end_) as [| b l IH];
    [reflexivity |].
  cbn [List.filter]. destruct (is_active polls b); cbn [negb length]; lia.
Qed.

End Totals.

Lemma filter_none {A : Type} (f : A -> bool) (l : list A) :
  (forall a, In a l -> f a = false) -> List.filter f l = [].
Proof.
  induction l as [| a l IH]; intros H; [reflexivity |].
  cbn [List.filter]. rewrite (H a (or_introl eq_refl)).
  apply IH. intros b Hb. apply H. right. exact Hb.
Qed.

Lemma filter_all {A : Type} (f : A -> bool) (l : list A) :
  (forall a, In a l -> f a = true) -> List.filter f l = l.
Proof.
  induction l as [| a l IH]; intros H; [reflexivity |].
  cbn [List.filter]. rewrite (H a (or_introl eq_refl)). f_equal.
  apply IH. intros b Hb. apply H. right. exact Hb.
Qed.

Lemma open_buckets_in_window (store_tz : tzinfo) (m : gmap Z (list (Z * Z)))
    (start end_ b : Z) :
  In b (open_buckets store_tz m start end_) -> start <= b < end_.
Proof.
  intros Hin. split; [eapply open_buckets_after_start, Hin |].
  unfold open_buckets in Hin. apply filter_In in Hin as [Hin _].
  apply window_buckets_spec in Hin as (k & _ & _ & Hlt). exact Hlt.
Qed.

(** X8. The totals in closed form: uptime is the number of buckets of the
    window that are within business hours and at which the carried
    forward status is exactly 'active'; downtime is the number of buckets
    within business hours at which it is anything else. *)
Theorem totals_closed_form
    (pytz_timezone : string -> option tzinfo) (store_id : uuid)
    (store_timezone_str : string) (store_tz : tzinfo)
    (business_hours_map : gmap Z (list (Z * Z)))
    (interval_start_utc interval_end_utc : Z) (polls : list StoreStatusPoll)
    (Htz : resolve_timezone pytz_timezone store_timezone_str = Ok store_tz) :
  calculate_store_uptime_for_period pytz_timezone store_id store_timezone_str
    business_hours_map interval_start_utc interval_end_utc polls
  = Ok (Z.of_nat (length (up_buckets store_tz business_hours_map polls
                            interval_start_utc interval_end_utc)),
        Z.of_nat (length (down_buckets store_tz business_hours_map polls
                            interval_start_utc interval_end_utc))) /\
  (forall b,
     In b (up_buckets store_tz business_hours_map polls
             interval_start_utc interval_end_utc) <->
     In b (window_buckets interval_start_utc interval_end_utc) /\
     is_store_open (astimezone b store_tz) business_hours_map = true /\
     get_status_at_time b polls = "active"%string) /\
  (forall b,
     In b (down_buckets store_tz business_hours_map polls
             interval_start_utc interval_end_utc) <->
     In b (window_buckets interval_start_utc interval_end_utc) /\
     is_store_open (astimezone b store_tz) business_hours_map = true /\
     get_status_at_time b polls <> "active"%string).
Proof.
  split; [apply calculate_closed_form, Htz |].
  split; intros b; unfold up_buckets, down_buckets, open_buckets, is_active;
    rewrite !filter_In.
  - rewrite String.eqb_eq. tauto.
  - rewrite negb_true_iff, String.eqb_neq. tauto.
Qed.

Lemma totals_closed_form_witness :
  calculate_store_uptime_for_period Examples.pytz_timezone 1%N "UTC"
    Examples.always_open (Examples.ref_instant - timedelta_hours 1)
    Examples.ref_instant Examples.polls_one_active
  = Ok (Z.of_nat (length (up_buckets Examples.utc Examples.always_open
                            Examples.polls_one_active
                            (Examples.ref_instant - timedelta_hours 1)
                            Examples.ref_instant)),
        Z.of_nat (length (down_buckets Examples.utc Examples.always_open
                            Examples.polls_one_active
                            (Examples.ref_instant - timedelta_hours 1)
                            Examples.ref_instant))).
Proof.
  exact (proj1 (totals_closed_form Examples.pytz_timezone 1%N "UTC" Examples.utc
                  Examples.always_open (Examples.ref_instant - timedelta_hours 1)
                  Examples.ref_instant Examples.polls_one_active eq_refl)).
Defined.

(** X9. A window whose end is not after its start counts nothing: the
    loop body never runs and both totals are 0, whatever the schedule and
    the samples. *)
Theorem empty_window_counts_nothing
    (pytz_timezone : string -> option tzinfo) (store_id : uuid)
    (store_timezone_str : string) (store_tz : tzinfo)
    (business_hours_map : gmap Z (list (Z * Z)))
    (interval_start_utc interval_end_utc : Z) (polls : list StoreStatusPoll)
    (Htz : resolve_timezone pytz_timezone store_timezone_str = Ok store_tz)
    (Hempty : interval_end_utc <= interval_start_utc) :
  calculate_store_uptime_for_period pytz_timezone store_id store_timezone_str
    business_hours_map interval_start_utc interval_end_utc polls
  = Ok (0, 0).
Proof.
  rewrite (calculate_as_scan pytz_timezone store_tz _ _ _ _ _ _ Htz).
  rewrite (window_buckets_nil _ _ Hempty). reflexivity.
Qed.

Lemma empty_window_counts_nothing_witness :
  calculate_store_uptime_for_period Examples.pytz_timezone 1%N "UTC"
    Examples.always_open Examples.ref_instant
    (Examples.ref_instant - timedelta_hours 1) Examples.polls_one_active
  = Ok (0, 0).
Proof.
  apply (empty_window_counts_nothing Examples.pytz_timezone 1%N "UTC" Examples.utc);
    [reflexivity | vm_compute; discriminate].
Defined.

(** X10. Totals add over adjacent windows: splitting a window at an
    instant a whole number of minutes after its start, the totals of the
    whole are the sums of the totals of the two parts. *)
Theorem totals_add_over_adjacent_windows
    (pytz_timezone : string -> option tzinfo) (store_id : uuid)
    (store_timezone_str : string) (store_tz : tzinfo)
    (business_hours_map : gmap Z (list (Z * Z)))
    (interval_start_utc interval_end_utc k : Z) (polls : list StoreStatusPoll)
    (Htz : resolve_timezone pytz_timezone store_timezone_str = Ok store_tz)
    (Hk : 0 <= k)
    (Hmid : interval_start_utc + timedelta_minutes k <= interval_end_utc) :
  exists up1 down1 up2 down2,
    calculate_store_uptime_for_period pytz_timezone store_id store_timezone_str
      business_hours_map interval_start_utc
      (interval_start_utc + timedelta_minutes k) polls = Ok (up1, down1) /\
    calculate_store_uptime_for_period pytz_timezone store_id store_timezone_str
      business_hours_map (interval_start_utc + timedelta_minutes k)
      interval_end_utc polls = Ok (up2, down2) /\
    calculate_store_uptime_for_period pytz_timezone store_id store_timezone_str
      business_hours_map interval_start_utc interval_end_utc polls
    = Ok (up1 + up2, down1 + down2).
Proof.
  rewrite !(calculate_closed_form pytz_timezone store_tz _ _ _ _ _ _ Htz).
  do 4 eexists. split; [reflexivity |]. split; [reflexivity |].
  replace k with (Z.of_nat (Z.to_nat k)) in * by lia.
  rewrite (up_buckets_split store_tz business_hours_map polls _ _ _ Hmid).
  rewrite (down_buckets_split store_tz business_hours_map polls _ _ _ Hmid).
  rewrite !length_app, !Nat2Z.inj_add. reflexivity.
Qed.

Lemma totals_add_over_adjacent_windows_witness :
  exists up1 down1 up2 down2,
    calculate_store_uptime_for_period Examples.pytz_timezone 1%N "UTC"
      Examples.always_open (Examples.ref_instant - timedelta_hours 1)
      (Examples.ref_instant - timedelta_hours 1 + timedelta_minutes 15)
      Examples.polls_one_active = Ok (up1, down1) /\
    calculate_store_uptime_for_period Examples.pytz_timezone 1%N "UTC"
      Examples.always_open
      (Examples.ref_instant - timedelta_hours 1 + timedelta_minutes 15)
      Examples.ref_instant Examples.polls_one_active = Ok (up2, down2) /\
    calculate_store_uptime_for_period Examples.pytz_timezone 1%N "UTC"
      Examples.always_open (Examples.ref_instant - timedelta_hours 1)
      Examples.ref_instant Examples.polls_one_active
    = Ok (up1 + up2, down1 + down2).
Proof.
  apply (totals_add_over_adjacent_windows Examples.pytz_timezone 1%N "UTC"
           Examples.utc);
    [reflexivity | lia | vm_compute; discriminate].
Defined.

(** X11. Minutes before the first listed sample are downtime: when the
    list is empty or its first sample is at or after the window end,
    uptime is 0 and downtime is the number of open buckets. *)
Theorem minutes_before_first_sample_are_down
    (pytz_timezone : string -> option tzinfo) (store_id : uuid)
    (store_timezone_str : string) (store_tz : tzinfo)
    (business_hours_map : gmap Z (list (Z * Z)))
    (interval_start_utc interval_end_utc : Z) (polls : list StoreStatusPoll)
    (Htz : resolve_timezone pytz_timezone store_timezone_str = Ok store_tz)
    (Hfirst : forall first, head polls = Some first ->
                            interval_end_utc <= models.timestamp_utc first) :
  calculate_store_uptime_for_period pytz_timezone store_id store_timezone_str
    business_hours_map interval_start_utc interval_end_utc polls
  = Ok (0, Z.of_nat (length (open_buckets store_tz business_hours_map
                               interval_start_utc interval_end_utc))).
Proof.
  rewrite (calculate_closed_form pytz_timezone store_tz _ _ _ _ _ _ Htz).
  assert (Hinactive : forall b,
            In b (open_buckets store_tz business_hours_map
                    interval_start_utc interval_end_utc) ->
            is_active polls b = false).
  { intros b Hb. apply open_buckets_in_window in Hb.
    unfold is_active, get_status_at_time.
    rewrite status_scan_before_first; [reflexivity |].
    intros first Hhead. specialize (Hfirst first Hhead). lia. }
  unfold up_buckets, down_buckets.
  rewrite (filter_none _ _ Hinactive), filter_all; [reflexivity |].
  intros b Hb. rewrite (Hinactive b Hb). reflexivity.
Qed.

Lemma minutes_before_first_sample_are_down_witness :
  calculate_store_uptime_for_period Examples.pytz_timezone 1%N "UTC"
    Examples.always_open 0 (timedelta_minutes 4) []
  = Ok (0, Z.of_nat (length (open_buckets Examples.utc Examples.always_open
                               0 (timedelta_minutes 4)))).
Proof.
  apply (minutes_before_first_sample_are_down Examples.pytz_timezone 1%N "UTC"
           Examples.utc);
    [reflexivity | discriminate].
Defined.

(** X12. Only the exact status 'active' counts as up: when no listed
    sample has status 'active' (any other spelling included), uptime is 0
    and every open bucket is downtime. *)
Theorem only_exact_active_counts_as_up
    (pytz_timezone : string -> option tzinfo) (store_id : uuid)
    (store_timezone_str : string) (store_tz : tzinfo)
    (business_hours_map : gmap Z (list (Z * Z)))
    (interval_start_utc interval_end_utc : Z) (polls : list StoreStatusPoll)
    (Htz : resolve_timezone pytz_timezone store_timezone_str = Ok store_tz)
    (Hnone : Forall (fun p => models.status p <> "active"%string) polls) :
  calculate_store_uptime_for_period pytz_timezone store_id store_timezone_str
    business_hours_map interval_start_utc interval_end_utc polls
  = Ok (0, Z.of_nat (length (open_buckets store_tz business_hours_map
                               interval_start_utc interval_end_utc))).
Proof.
  rewrite (calculate_closed_form pytz_timezone store_tz _ _ _ _ _ _ Htz).
  assert (Hinactive : forall b, is_active polls b = false).
  { intros b. unfold is_active, get_status_at_time. apply String.eqb_neq.
    destruct (status_scan_cases b polls DEFAULT_STORE_STATUS)
      as [-> | (p & Hin & _ & ->)]; [discriminate |].
    rewrite List.Forall_forall in Hnone. apply Hnone, Hin. }
  unfold up_buckets, down_buckets.
  rewrite filter_none by (intros; apply Hinactive).
  rewrite filter_all; [reflexivity |].
  intros b _. rewrite Hinactive. reflexivity.
Qed.

Lemma only_exact_active_counts_as_up_witness :
  calculate_store_uptime_for_period Examples.pytz_timezone 1%N "UTC"
    Examples.always_open 0 (timedelta_minutes 4) [models.mkPoll (-1) "ACTIVE"]
  = Ok (0, Z.of_nat (length (open_buckets Examples.utc Examples.always_open
                               0 (timedelta_minutes 4)))).
Proof.
  apply (only_exact_active_counts_as_up Examples.pytz_timezone 1%N "UTC"
           Examples.utc);
    [reflexivity | repeat constructor; cbn; discriminate].
Defined.

(** X13. When the first listed sample is at or before the window start and
    every listed sample is 'active', downtime is 0 and every open bucket
    is uptime; no order of the samples is needed. *)
Theorem all_active_since_before_window
    (pytz_timezone : string -> option tzinfo) (store_id : uuid)
    (store_timezone_str : string) (store_tz : tzinfo)
    (business_hours_map : gmap Z (list (Z * Z)))
    (interval_start_utc interval_end_utc : Z) (polls : list StoreStatusPoll)
    (first : StoreStatusPoll)
    (Htz : resolve_timezone pytz_timezone store_timezone_str = Ok store_tz)
    (Hhead : head polls = Some first)
    (Hfirst : models.timestamp_utc first <= interval_start_utc)
    (Hall : Forall (fun p => models.status p = "active"%string) polls) :
  calculate_store_uptime_for_period pytz_timezone store_id store_timezone_str
    business_hours_map interval_start_utc interval_end_utc polls
  = Ok (Z.of_nat (length (open_buckets store_tz business_hours_map
                            interval_start_utc interval_end_utc)), 0).
Proof.
  rewrite (calculate_closed_form pytz_timezone store_tz _ _ _ _ _ _ Htz).
  assert (Hactive : forall b,
            In b (open_buckets store_tz business_hours_map
                    interval_start_utc interval_end_utc) ->
            is_active polls b = true).
  { intros b Hb. apply open_buckets_in_window in Hb.
    unfold is_active, get_status_at_time. apply String.eqb_eq.
    destruct (status_scan_from_first b polls DEFAULT_STORE_STATUS first Hhead
                ltac:(lia)) as (p & Hin & _ & ->).
    rewrite List.Forall_forall in Hall. apply Hall, Hin. }
  unfold up_buckets, down_buckets.
  rewrite (filter_all _ _ Hactive), filter_none; [reflexivity |].
  intros b Hb. rewrite (Hactive b Hb). reflexivity.
Qed.

Lemma all_active_since_before_window_witness :
  calculate_store_uptime_for_period Examples.pytz_timezone 1%N "UTC"
    Examples.always_open 0 (timedelta_minutes 4)
    [models.mkPoll (-5) "active"; models.mkPoll 70 "active"]
  = Ok (Z.of_nat (length (open_buckets Examples.utc Examples.always_open
                            0 (timedelta_minutes 4))), 0).
Proof.
  apply (all_active_since_before_window Examples.pytz_timezone 1%N "UTC"
           Examples.utc Examples.always_open 0 (timedelta_minutes 4) _
           (models.mkPoll (-5) "active"));
    [reflexivity | reflexivity | cbn; lia | repeat constructor].
Defined.

Lemma open_buckets_of_always_open (store_tz : tzinfo) (start end_ : Z) :
  open_buckets store_tz Examples.always_open start end_ = window_buckets start end_.
Proof.
  unfold open_buckets. apply filter_all.
  intros b _. apply is_store_open_always_open.
Qed.

(** X14. For a site with no business-hour rows the totals do not depend
    on the timezone, and they add up to the whole window: the number of
    minutes started in it, a last partial minute counting as one. *)
Theorem always_open_totals_ignore_timezone
    (pytz_timezone : string -> option tzinfo) (db : Session) (store_id : uuid)
    (zone1 zone2 : string) (tz1 tz2 : tzinfo)
    (interval_start_utc interval_end_utc : Z) (polls : list StoreStatusPoll)
    (Hrows : models.query_business_hours db store_id = [])
    (Htz1 : resolve_timezone pytz_timezone zone1 = Ok tz1)
    (Htz2 : resolve_timezone pytz_timezone zone2 = Ok tz2) :
  exists m minutes_up minutes_down,
    get_business_hours_for_store db store_id = Ok m /\
    calculate_store_uptime_for_period pytz_timezone store_id zone1 m
      interval_start_utc interval_end_utc polls = Ok (minutes_up, minutes_down) /\
    calculate_store_uptime_for_period pytz_timezone store_id zone2 m
      interval_start_utc interval_end_utc polls = Ok (minutes_up, minutes_down) /\
    minutes_up + minutes_down
    = Z.of_nat (bucket_count interval_start_utc interval_end_utc) /\
    Z.of_nat (bucket_count interval_start_utc interval_end_utc)
    = Z.max 0 ((interval_end_utc - interval_start_utc + us_per_minute - 1)
               / us_per_minute).
Proof.
  exists Examples.always_open. do 2 eexists.
  split; [apply get_business_hours_no_rows, Hrows |].
  rewrite (calculate_closed_form pytz_timezone tz1 _ _ _ _ _ _ Htz1).
  rewrite (calculate_closed_form pytz_timezone tz2 _ _ _ _ _ _ Htz2).
  unfold up_buckets, down_buckets. rewrite !open_buckets_of_always_open.
  split; [reflexivity |]. split; [reflexivity |]. split.
  - pose proof (up_down_partition tz1 Examples.always_open polls
                  interval_start_utc interval_end_utc) as Hpart.
    unfold up_buckets, down_buckets in Hpart.
    rewrite open_buckets_of_always_open, window_buckets_length in Hpart. lia.
  - unfold bucket_count. lia.
Qed.

Lemma always_open_totals_ignore_timezone_witness :
  exists m minutes_up minutes_down,
    get_business_hours_for_store Examples.db_no_hours 1%N = Ok m /\
    calculate_store_uptime_for_period Examples.pytz_timezone 1%N "UTC" m
      0 (timedelta_minutes 4 + 1) Examples.polls_before_window
    = Ok (minutes_up, minutes_down) /\
    calculate_store_uptime_for_period Examples.pytz_timezone 1%N "America/Chicago" m
      0 (timedelta_minutes 4 + 1) Examples.polls_before_window
    = Ok (minutes_up, minutes_down) /\
    minutes_up + minutes_down = 5.
Proof.
  destruct (always_open_totals_ignore_timezone Examples.pytz_timezone
              Examples.db_no_hours 1%N "UTC" "America/Chicago"
              Examples.utc (fun _ => - timedelta_hours 6)
              0 (timedelta_minutes 4 + 1) Examples.polls_before_window
              eq_refl eq_refl eq_refl)
    as (m & up & down & Hm & H1 & H2 & Hsum & _).
  exists m, up, down.
  split; [exact Hm |]. split; [exact H1 |]. split; [exact H2 |].
  rewrite Hsum. reflexivity.
Defined.




(** ** Bounds and order of the report fields *)

Lemma hours_2dp_mono (a b : Z) :
  a <= b ->
  (py_round_ndigits (inject_Z a / 60) 2 <= py_round_ndigits (inject_Z b / 60) 2)%Q.
Proof.
  intros Hab. destruct (Z.eq_dec a b) as [-> | Hne]; [apply Qle_refl |].
  pose proof (py_round_nearest (inject_Z a / 60 * inject_Z (Z.pos (Pos.pow 10 2)))) as Ha.
  pose proof (py_round_nearest (inject_Z b / 60 * inject_Z (Z.pos (Pos.pow 10 2)))) as Hb.
  unfold py_round_ndigits.
  set (ka := py_round (inject_Z a / 60 * inject_Z (Z.pos (Pos.pow 10 2)))) in *.
  set (kb := py_round (inject_Z b / 60 * inject_Z (Z.pos (Pos.pow 10 2)))) in *.
  change (Pos.pow 10 2) with 100%positive in *.
  unfold Qle, Qdiv, Qmult, Qinv, inject_Z in *. cbn [Qnum Qden] in *.
  cbn in Ha, Hb. lia.
Qed.

Lemma totals_within_window (store_tz : tzinfo) (m : gmap Z (list (Z * Z)))
    (polls : list StoreStatusPoll) (start end_ : Z) :
  (length (up_buckets store_tz m polls start end_)
   + length (down_buckets store_tz m polls start end_)
   <= bucket_count start end_)%nat.
Proof.
  rewrite up_down_partition, <- window_buckets_length.
  apply filter_length_bound.
Qed.

Lemma trailing_bucket_count (reference_time_utc : Z) :
  bucket_count (reference_time_utc - timedelta_hours 1) reference_time_utc = 60%nat /\
  bucket_count (reference_time_utc - timedelta_days 1) reference_time_utc
  = Z.to_nat 1440 /\
  bucket_count (reference_time_utc - timedelta_days 7) reference_time_utc
  = Z.to_nat 10080.
Proof.
  change (timedelta_hours 1) with (timedelta_minutes 60).
  change (timedelta_days 1) with (timedelta_minutes 1440).
  change (timedelta_days 7) with (timedelta_minutes 10080).
  rewrite !bucket_count_exact by lia. repeat split; reflexivity.
Qed.

(** The report in terms of the closed form of the three totals. *)
Lemma generate_closed_form (pytz_timezone : string -> option tzinfo) (db : Session)
    (store : Store) (reference_time_utc : Z) (store_tz : tzinfo)
    (m : gmap Z (list (Z * Z))) :
  get_business_hours_for_store db (models.id store) = Ok m ->
  resolve_timezone pytz_timezone (models.timezone_str store) = Ok store_tz ->
  let polls :=
    models.query_polls db (models.id store)
      (reference_time_utc - timedelta_days 7
       - timedelta_hours POLL_FETCH_BUFFER_HOURS) reference_time_utc in
  let up since := Z.of_nat (length (up_buckets store_tz m polls
                                      (reference_time_utc - since) reference_time_utc)) in
  let down since := Z.of_nat (length (down_buckets store_tz m polls
                                        (reference_time_utc - since) reference_time_utc)) in
  generate_report_data_for_store pytz_timezone db store reference_time_utc
  = Ok {| store_id := models.id store;
          uptime_last_hour := up (timedelta_hours 1);
          uptime_last_day := py_round_ndigits (inject_Z (up (timedelta_days 1)) / 60) 2;
          uptime_last_week := py_round_ndigits (inject_Z (up (timedelta_days 7)) / 60) 2;
          downtime_last_hour := down (timedelta_hours 1);
          downtime_last_day := py_round_ndigits (inject_Z (down (timedelta_days 1)) / 60) 2;
          downtime_last_week := py_round_ndigits (inject_Z (down (timedelta_days 7)) / 60) 2 |}.
Proof.
  intros Hm Htz. cbv zeta.
  destruct (generate_runs pytz_timezone db store reference_time_utc store_tz m Hm Htz)
    as (h & d & w & Hh & Hd & Hw & ->).
  cbv zeta in Hh, Hd, Hw.
  rewrite (calculate_closed_form pytz_timezone store_tz _ _ _ _ _ _ Htz) in Hh.
  rewrite (calculate_closed_form pytz_timezone store_tz _ _ _ _ _ _ Htz) in Hd.
  rewrite (calculate_closed_form pytz_timezone store_tz _ _ _ _ _ _ Htz) in Hw.
  injection Hh as <-. injection Hd as <-. injection Hw as <-.
  cbn [fst snd]. rewrite !py_round_integer. reflexivity.
Qed.

Lemma trailing_buckets_mono (store_tz : tzinfo) (m : gmap Z (list (Z * Z)))
    (polls : list StoreStatusPoll) (reference_time_utc j k : Z) :
  0 <= j <= k ->
  (length (up_buckets store_tz m polls
             (reference_time_utc - timedelta_minutes j) reference_time_utc)
   <= length (up_buckets store_tz m polls
                (reference_time_utc - timedelta_minutes k) reference_time_utc))%nat /\
  (length (down_buckets store_tz m polls
             (reference_time_utc - timedelta_minutes j) reference_time_utc)
   <= length (down_buckets store_tz m polls
                (reference_time_utc - timedelta_minutes k) reference_time_utc))%nat.
Proof.
  intros Hjk.
  assert (Hmid : reference_time_utc - timedelta_minutes k
                 + timedelta_minutes (Z.of_nat (Z.to_nat (k - j)))
                 = reference_time_utc - timedelta_minutes j)
    by (unfold timedelta_minutes; change us_per_minute with 60000000; lia).
  assert (Hle : reference_time_utc - timedelta_minutes k
                + timedelta_minutes (Z.of_nat (Z.to_nat (k - j)))
                <= reference_time_utc).
  { rewrite Hmid. unfold timedelta_minutes. change us_per_minute with 60000000. lia. }
  rewrite (up_buckets_split store_tz m polls _ _ _ Hle).
  rewrite (down_buckets_split store_tz m polls _ _ _ Hle).
  rewrite Hmid, !length_app. lia.
Qed.

(** X17. Every field of a report is within its window: the last-hour
    fields are whole minutes between 0 and 60 whose sum is at most 60, the
    last-day fields lie between 0 and 24 hours and the last-week fields
    between 0 and 168 hours. *)
Theorem report_fields_are_bounded
    (pytz_timezone : string -> option tzinfo) (db : Session) (store : Store)
    (reference_time_utc : Z) (store_tz : tzinfo)
    (Hrows : Forall valid_row (models.query_business_hours db (models.id store)))
    (Htz : resolve_timezone pytz_timezone (models.timezone_str store) = Ok store_tz) :
  exists record,
    generate_report_data_for_store pytz_timezone db store reference_time_utc
    = Ok record /\
    0 <= uptime_last_hour record /\ 0 <= downtime_last_hour record /\
    uptime_last_hour record + downtime_last_hour record <= 60 /\
    (0 <= uptime_last_day record /\ uptime_last_day record <= 24)%Q /\
    (0 <= downtime_last_day record /\ downtime_last_day record <= 24)%Q /\
    (0 <= uptime_last_week record /\ uptime_last_week record <= 168)%Q /\
    (0 <= downtime_last_week record /\ downtime_last_week record <= 168)%Q.
Proof.
  destruct (get_business_hours_ok db (models.id store) Hrows) as [m Hm].
  pose proof (generate_closed_form pytz_timezone db store reference_time_utc
                store_tz m Hm Htz) as Hgen.
  cbv zeta in Hgen. eexists. split; [exact Hgen |].
  cbn [uptime_last_hour downtime_last_hour uptime_last_day downtime_last_day
       uptime_last_week downtime_last_week].
  destruct (trailing_bucket_count reference_time_utc) as (Hc1 & Hc2 & Hc3).
  set (polls := models.query_polls db (models.id store) _ reference_time_utc).
  pose proof (totals_within_window store_tz m polls
                (reference_time_utc - timedelta_hours 1) reference_time_utc) as Hh.
  pose proof (totals_within_window store_tz m polls
                (reference_time_utc - timedelta_days 1) reference_time_utc) as Hd.
  pose proof (totals_within_window store_tz m polls
                (reference_time_utc - timedelta_days 7) reference_time_utc) as Hw.
  rewrite Hc1 in Hh. rewrite Hc2 in Hd. rewrite Hc3 in Hw.
  split; [lia |]. split; [lia |]. split; [lia |].
  assert (Hzero : forall a, 0 <= a ->
            (0 <= py_round_ndigits (inject_Z a / 60) 2)%Q).
  { intros a Ha. apply (Qle_trans _ (py_round_ndigits (inject_Z 0 / 60) 2));
      [vm_compute; discriminate | apply hours_2dp_mono, Ha]. }
  assert (Hday : forall a, a <= 1440 ->
            (py_round_ndigits (inject_Z a / 60) 2 <= 24)%Q).
  { intros a Ha. apply (Qle_trans _ (py_round_ndigits (inject_Z 1440 / 60) 2));
      [apply hours_2dp_mono, Ha | vm_compute; discriminate]. }
  assert (Hweek : forall a, a <= 10080 ->
            (py_round_ndigits (inject_Z a / 60) 2 <= 168)%Q).
  { intros a Ha. apply (Qle_trans _ (py_round_ndigits (inject_Z 10080 / 60) 2));
      [apply hours_2dp_mono, Ha | vm_compute; discriminate]. }
  repeat split; first [apply Hzero | apply Hday | apply Hweek]; lia.
Qed.

Lemma report_fields_are_bounded_witness :
  exists record,
    generate_report_data_for_store Examples.pytz_timezone Examples.db_monday_overnight
      (models.mkStore 1%N "UTC") Examples.ref_instant = Ok record /\
    uptime_last_hour record + downtime_last_hour record <= 60 /\
    (uptime_last_week record <= 168)%Q.
Proof.
  destruct (report_fields_are_bounded Examples.pytz_timezone
              Examples.db_monday_overnight (models.mkStore 1%N "UTC")
              Examples.ref_instant Examples.utc)
    as (r & Hgen & _ & _ & Hsum & _ & _ & [_ Hweek] & _).
  - repeat constructor; unfold valid_row; cbn; lia.
  - reflexivity.
  - exists r. auto.
Defined.

(** X18. The last-day fields of a report never exceed the last-week
    fields: the nesting of the windows survives the conversion to hours
    and the rounding. *)
Theorem report_day_within_week
    (pytz_timezone : string -> option tzinfo) (db : Session) (store : Store)
    (reference_time_utc : Z) (store_tz : tzinfo)
    (Hrows : Forall valid_row (models.query_business_hours db (models.id store)))
    (Htz : resolve_timezone pytz_timezone (models.timezone_str store) = Ok store_tz) :
  exists record,
    generate_report_data_for_store pytz_timezone db store reference_time_utc
    = Ok record /\
    (uptime_last_day record <= uptime_last_week record)%Q /\
    (downtime_last_day record <= downtime_last_week record)%Q.
Proof.
  destruct (get_business_hours_ok db (models.id store) Hrows) as [m Hm].
  pose proof (generate_closed_form pytz_timezone db store reference_time_utc
                store_tz m Hm Htz) as Hgen.
  cbv zeta in Hgen. eexists. split; [exact Hgen |].
  cbn [uptime_last_day downtime_last_day uptime_last_week downtime_last_week].
  set (polls := models.query_polls db (models.id store) _ reference_time_utc).
  change (timedelta_days 1) with (timedelta_minutes 1440).
  change (timedelta_days 7) with (timedelta_minutes 10080).
  destruct (trailing_buckets_mono store_tz m polls reference_time_utc 1440 10080)
    as [Hup Hdown]; [lia |].
  split; apply hours_2dp_mono; lia.
Qed.

Lemma report_day_within_week_witness :
  exists record,
    generate_report_data_for_store Examples.pytz_timezone Examples.db_monday_overnight
      (models.mkStore 1%N "UTC") Examples.ref_instant = Ok record /\
    (uptime_last_day record <= uptime_last_week record)%Q /\
    (downtime_last_day record <= downtime_last_week record)%Q.
Proof.
  apply (report_day_within_week Examples.pytz_timezone
           Examples.db_monday_overnight (models.mkStore 1%N "UTC")
           Examples.ref_instant Examples.utc).
  - repeat constructor; unfold valid_row; cbn; lia.
  - reflexivity.
Defined.

Lemma no_samples_never_active (b : Z) : is_active [] b = false.
Proof. reflexivity. Qed.

(** X19. A site with no business-hour rows and no samples in the queried
    range is reported as down around the clock: uptime 0 in every window,
    downtime 60 minutes, 24.00 hours and 168.00 hours, for every reference
    instant and every resolvable timezone. *)
Theorem report_without_rows_and_samples
    (pytz_timezone : string -> option tzinfo) (db : Session) (store : Store)
    (reference_time_utc : Z) (store_tz : tzinfo)
    (Hrows : models.query_business_hours db (models.id store) = [])
    (Hpolls : models.query_polls db (models.id store)
                (reference_time_utc - timedelta_days 7
                 - timedelta_hours POLL_FETCH_BUFFER_HOURS) reference_time_utc
              = [])
    (Htz : resolve_timezone pytz_timezone (models.timezone_str store) = Ok store_tz) :
  generate_report_data_for_store pytz_timezone db store reference_time_utc
  = Ok {| store_id := models.id store;
          uptime_last_hour := 0;
          uptime_last_day := (0 # 100)%Q;
          uptime_last_week := (0 # 100)%Q;
          downtime_last_hour := 60;
          downtime_last_day := (2400 # 100)%Q;
          downtime_last_week := (16800 # 100)%Q |}.
Proof.
  pose proof (generate_closed_form pytz_timezone db store reference_time_utc
                store_tz Examples.always_open
                (get_business_hours_no_rows _ _ Hrows) Htz) as Hgen.
  cbv zeta in Hgen. rewrite Hgen, Hpolls. clear Hgen.
  unfold up_buckets, down_buckets.
  rewrite !open_buckets_of_always_open.
  rewrite !(filter_none (is_active [])) by (intros; apply no_samples_never_active).
  rewrite !(filter_all (fun b => negb (is_active [] b))) by reflexivity.
  rewrite !window_buckets_length.
  destruct (trailing_bucket_count reference_time_utc) as (-> & -> & ->).
  reflexivity.
Qed.

Lemma report_without_rows_and_samples_witness :
  generate_report_data_for_store Examples.pytz_timezone
    {| models.query_business_hours := fun _ => [];
       models.query_polls := fun _ _ _ => [] |}
    (models.mkStore 1%N "UTC") Examples.ref_instant
  = Ok {| store_id := 1%N;
          uptime_last_hour := 0;
          uptime_last_day := (0 # 100)%Q;
          uptime_last_week := (0 # 100)%Q;
          downtime_last_hour := 60;
          downtime_last_day := (2400 # 100)%Q;
          downtime_last_week := (16800 # 100)%Q |}.
Proof.
  apply (report_without_rows_and_samples Examples.pytz_timezone _
           (models.mkStore 1%N "UTC") Examples.ref_instant Examples.utc);
    reflexivity.
Defined.

Lemma business_hours_raises_at (db : Session) (store_id : uuid)
    (good rest : list BusinessHour) (bad : BusinessHour) :
  models.query_business_hours db store_id = good ++ bad :: rest ->
  Forall valid_row good -> ~ valid_row bad ->
  get_business_hours_for_store db store_id
  = Raise (KeyError (models.day_of_week bad)).
Proof.
  intros Hq Hgood Hbad. unfold get_business_hours_for_store. rewrite Hq.
  destruct (good ++ bad :: rest) as [| bh rows] eqn:Hrows.
  - destruct good; discriminate.
  - rewrite <- Hrows.
    apply append_rows_first_bad; [exact Hgood | exact Hbad | apply empty_week_keys].
Qed.

(** X20. A business-hour row with a day outside 0..6 fails the whole
    report with [KeyError] for that day: the map is built before anything
    else, so no window is computed and no partial record is returned,
    whatever the timezone and the samples. *)
Theorem report_raises_key_error_on_bad_day
    (pytz_timezone : string -> option tzinfo) (db : Session) (store : Store)
    (reference_time_utc : Z)
    (good rest : list BusinessHour) (bad : BusinessHour)
    (Hq : models.query_business_hours db (models.id store) = good ++ bad :: rest)
    (Hgood : Forall valid_row good) (Hbad : ~ valid_row bad) :
  generate_report_data_for_store pytz_timezone db store reference_time_utc
  = Raise (KeyError (models.day_of_week bad)).
Proof.
  unfold generate_report_data_for_store. cbv zeta.
  rewrite (business_hours_raises_at db (models.id store) good rest bad Hq Hgood Hbad).
  reflexivity.
Qed.

Lemma report_raises_key_error_on_bad_day_witness :
  generate_report_data_for_store Examples.pytz_timezone
    {| models.query_business_hours := fun _ =>
         Examples.monday_overnight_rows
         ++ [models.mkBusinessHour (-1) (mk_time 9 0 0 0) (mk_time 17 0 0 0)];
       models.query_polls := fun _ _ _ => Examples.polls_one_active |}
    (models.mkStore 1%N "Mars/Olympus") Examples.ref_instant
  = Raise (KeyError (-1)).
Proof.
  apply (report_raises_key_error_on_bad_day Examples.pytz_timezone _
           (models.mkStore 1%N "Mars/Olympus") Examples.ref_instant
           Examples.monday_overnight_rows []
           (models.mkBusinessHour (-1) (mk_time 9 0 0 0) (mk_time 17 0 0 0))).
  - reflexivity.
  - repeat constructor; unfold valid_row; cbn; lia.
  - unfold valid_row. cbn. lia.
Defined.

(** ** Ingestion of business hours *)

Lemma business_hour_of_row_valid (row : ingestion.hours_row) (bh : BusinessHour) :
  ingestion.business_hour_of_row row = Some bh -> valid_row bh.
Proof.
  unfold ingestion.business_hour_of_row.
  destruct (ingestion.hours_day row) as [day |]; [| discriminate]. cbn.
  destruct (ingestion.time_of_cell (ingestion.hours_start row)) as [[s |] |];
    cbn; try discriminate;
    destruct (ingestion.time_of_cell (ingestion.hours_end row)) as [[e |] |];
    cbn; try discriminate.
  destruct (Z.leb_spec 0 day), (Z.leb_spec day 6); cbn; try discriminate.
  intros Hbh. injection Hbh as <-. unfold valid_row. cbn. lia.
Qed.

Lemma business_hours_of_app (t1 t2 : list (uuid * BusinessHour)) (sid : uuid) :
  ingestion.business_hours_of (t1 ++ t2) sid
  = ingestion.business_hours_of t1 sid ++ ingestion.business_hours_of t2 sid.
Proof.
  unfold ingestion.business_hours_of. rewrite List.filter_app, map_app. reflexivity.
Qed.

Lemma in_stores_spec (stores : list uuid) (sid : uuid) :
  ingestion.in_stores stores sid = true <-> In sid stores.
Proof.
  unfold ingestion.in_stores. rewrite existsb_exists. split.
  - intros (x & Hin & Heq). apply N.eqb_eq in Heq. subst x. exact Hin.
  - intros Hin. exists sid. split; [exact Hin | apply N.eqb_refl].
Qed.

(** The rows of the file that belong to a store, in file order. *)
Lemma hours_added_for_store (df : list ingestion.hours_row) (sid : uuid) :
  ingestion.business_hours_of
    (omap (fun '(s, row) => bh ← ingestion.business_hour_of_row row; Some (s, bh))
       (ingestion.rows_with_store df)) sid
  = omap ingestion.business_hour_of_row
      (List.filter (fun row => match ingestion.hours_store_id row with
                               | Some s => N.eqb s sid
                               | None => false
                               end) df).
Proof.
  unfold ingestion.business_hours_of, ingestion.rows_with_store.
  induction df as [| row df IH]; [reflexivity |].
  cbn [omap list_omap List.filter].
  destruct (ingestion.hours_store_id row) as [s |]; cbn; [| exact IH].
  destruct (ingestion.business_hour_of_row row) as [bh |] eqn:Hbh; cbn.
  - destruct (N.eqb s sid); cbn; rewrite ?Hbh; cbn; [f_equal |]; exact IH.
  - destruct (N.eqb s sid); cbn; rewrite ?Hbh; exact IH.
Qed.

Lemma hours_kept_for_store (table : list (uuid * BusinessHour)) (stores : list uuid)
    (sid : uuid) :
  ingestion.business_hours_of
    (List.filter (fun r => negb (ingestion.in_stores stores (fst r))) table) sid
  = if ingestion.in_stores stores sid then []
    else ingestion.business_hours_of table sid.
Proof.
  unfold ingestion.business_hours_of.
  induction table as [| [s bh] table IH]; cbn [List.filter fst].
  - destruct (ingestion.in_stores stores sid); reflexivity.
  - destruct (N.eqb_spec s sid) as [-> | Hne].
    + destruct (ingestion.in_stores stores sid) eqn:Hin; cbn [negb].
      * exact IH.
      * cbn [List.filter fst]. rewrite N.eqb_refl. cbn [map snd]. f_equal. exact IH.
    + destruct (ingestion.in_stores stores s); cbn [negb]; [exact IH |].
      cbn [List.filter fst]. destruct (N.eqb_spec s sid); [contradiction | exact IH].
Qed.

Lemma load_business_hours_rows (table : list (uuid * BusinessHour))
    (df : list ingestion.hours_row) (sid : uuid) :
  ingestion.business_hours_of (ingestion.load_business_hours table df) sid
  = (if ingestion.in_stores (map fst (ingestion.rows_with_store df)) sid
     then [] else ingestion.business_hours_of table sid)
    ++ omap ingestion.business_hour_of_row
         (List.filter (fun row => match ingestion.hours_store_id row with
                                  | Some s => N.eqb s sid
                                  | None => false
                                  end) df).
Proof.
  unfold ingestion.load_business_hours. cbv zeta.
  rewrite business_hours_of_app, hours_added_for_store. f_equal.
  destruct (map fst (ingestion.rows_with_store df)) as [| s stores] eqn:Hstores.
  - reflexivity.
  - apply hours_kept_for_store.
Qed.

Lemma omap_valid (rows : list ingestion.hours_row) :
  Forall valid_row (omap ingestion.business_hour_of_row rows).
Proof.
  apply Forall_forall. intros bh Hin.
  apply list_elem_of_omap in Hin as (row & _ & Hrow).
  eapply business_hour_of_row_valid, Hrow.
Qed.

(** X21. [load_business_hours] stores only rows with a day in 0..6, and
    keeps a table free of other days free of them; so on a table that
    went through it [get_business_hours_for_store] returns a map and
    never raises [KeyError]. *)
Theorem ingested_hours_never_raise
    (table : list (uuid * BusinessHour)) (df : list ingestion.hours_row)
    (db : Session) (store_id : uuid)
    (Hold : Forall valid_row (ingestion.business_hours_of table store_id))
    (Hq : models.query_business_hours db store_id
          = ingestion.business_hours_of
              (ingestion.load_business_hours table df) store_id) :
  Forall valid_row (models.query_business_hours db store_id) /\
  exists m, get_business_hours_for_store db store_id = Ok m.
Proof.
  assert (Hvalid : Forall valid_row (models.query_business_hours db store_id)).
  { rewrite Hq, load_business_hours_rows. apply Forall_app. split.
    - destruct (ingestion.in_stores _ store_id); [constructor | exact Hold].
    - apply omap_valid. }
  split; [exact Hvalid | apply get_business_hours_ok, Hvalid].
Qed.

Lemma ingested_hours_never_raise_witness :
  exists m,
    get_business_hours_for_store
      {| models.query_business_hours :=
           ingestion.business_hours_of
             (ingestion.load_business_hours []
                [ingestion.mkHoursRow (Some 1%N) (Some 0)
                   (ingestion.GoodTime (mk_time 22 0 0 0))
                   (ingestion.GoodTime (mk_time 2 0 0 0));
                 ingestion.mkHoursRow (Some 1%N) (Some 7)
                   (ingestion.GoodTime (mk_time 9 0 0 0))
                   (ingestion.GoodTime (mk_time 17 0 0 0))]);
         models.query_polls := fun _ _ _ => [] |} 1%N = Ok m.
Proof.
  eapply (ingested_hours_never_raise [] _ _ 1%N).
  - constructor.
  - reflexivity.
Defined.

(** X22. Loading a business hours file replaces the rows of the stores it
    names and of no other store: a store whose id appears in the file
    (on any row with a parsable id) ends with exactly the accepted rows of
    the file, in file order, its earlier rows gone; any other store keeps
    the rows it had. *)
Theorem reingestion_replaces_hours
    (table : list (uuid * BusinessHour)) (df : list ingestion.hours_row)
    (store_id : uuid) :
  (In store_id (map fst (ingestion.rows_with_store df)) ->
   ingestion.business_hours_of (ingestion.load_business_hours table df) store_id
   = omap ingestion.business_hour_of_row
       (List.filter (fun row => match ingestion.hours_store_id row with
                                | Some s => N.eqb s store_id
                                | None => false
                                end) df)) /\
  (~ In store_id (map fst (ingestion.rows_with_store df)) ->
   ingestion.business_hours_of (ingestion.load_business_hours table df) store_id
   = ingestion.business_hours_of table store_id).
Proof.
  rewrite load_business_hours_rows. split; intros Hin.
  - apply in_stores_spec in Hin. rewrite Hin. reflexivity.
  - destruct (ingestion.in_stores _ store_id) eqn:His.
    + apply in_stores_spec in His. contradiction.
    + rewrite filter_none, app_nil_r; [reflexivity |].
      intros row Hrow.
      destruct (ingestion.hours_store_id row) as [s |] eqn:Hs; [| reflexivity].
      apply N.eqb_neq. intros ->. apply Hin.
      apply in_map_iff. exists (store_id, row). split; [reflexivity |].
      apply list_elem_of_In, list_elem_of_omap. exists row.
      split; [apply list_elem_of_In, Hrow | rewrite Hs; reflexivity].
Qed.

Lemma rejected_rows_add_nothing (df : list ingestion.hours_row) (sid : uuid) :
  (forall row,
      In row df -> ingestion.hours_store_id row = Some sid ->
      ingestion.business_hour_of_row row = None) ->
  omap ingestion.business_hour_of_row
    (List.filter (fun row => match ingestion.hours_store_id row with
                             | Some s => N.eqb s sid
                             | None => false
                             end) df) = [].
Proof.
  induction df as [| row df IH]; intros Hrejected; [reflexivity |].
  assert (Hrest : forall r,
             In r df -> ingestion.hours_store_id r = Some sid ->
             ingestion.business_hour_of_row r = None)
    by (intros r Hr; apply Hrejected; right; exact Hr).
  cbn [List.filter].
  destruct (ingestion.hours_store_id row) as [s |] eqn:Hs; [| exact (IH Hrest)].
  destruct (N.eqb_spec s sid) as [-> | Hne]; [| exact (IH Hrest)].
  cbn [omap list_omap].
  rewrite (Hrejected row (or_introl eq_refl) Hs). exact (IH Hrest).
Qed.

(** X23. A store that appears in the file with only rejected rows (bad
    day, missing or unparsable time) loses its earlier rows and gets none:
    from then on it counts as open around the clock. *)
Theorem only_rejected_rows_mean_always_open
    (table : list (uuid * BusinessHour)) (df : list ingestion.hours_row)
    (db : Session) (store_id : uuid)
    (Hin : In store_id (map fst (ingestion.rows_with_store df)))
    (Hrejected : forall row,
        In row df -> ingestion.hours_store_id row = Some store_id ->
        ingestion.business_hour_of_row row = None)
    (Hq : models.query_business_hours db store_id
          = ingestion.business_hours_of
              (ingestion.load_business_hours table df) store_id) :
  models.query_business_hours db store_id = [] /\
  exists m,
    get_business_hours_for_store db store_id = Ok m /\
    forall local_dt, is_store_open local_dt m = true.
Proof.
  assert (Hnone : models.query_business_hours db store_id = []).
  { rewrite Hq, load_business_hours_rows.
    apply in_stores_spec in Hin. rewrite Hin. cbn [app].
    apply rejected_rows_add_nothing, Hrejected. }
  split; [exact Hnone |].
  exists Examples.always_open.
  split; [apply get_business_hours_no_rows, Hnone | apply is_store_open_always_open].
Qed.

Lemma only_rejected_rows_mean_always_open_witness :
  exists m,
    get_business_hours_for_store
      {| models.query_business_hours :=
           ingestion.business_hours_of
             (ingestion.load_business_hours
                [(1%N, models.mkBusinessHour 0 (mk_time 9 0 0 0) (mk_time 17 0 0 0))]
                [ingestion.mkHoursRow (Some 1%N) (Some 9)
                   (ingestion.GoodTime (mk_time 9 0 0 0))
                   (ingestion.GoodTime (mk_time 17 0 0 0))]);
         models.query_polls := fun _ _ _ => [] |} 1%N = Ok m /\
    forall local_dt, is_store_open local_dt m = true.
Proof.
  refine (proj2 (only_rejected_rows_mean_always_open
                   [(1%N, models.mkBusinessHour 0 (mk_time 9 0 0 0) (mk_time 17 0 0 0))]
                   [ingestion.mkHoursRow (Some 1%N) (Some 9)
                      (ingestion.GoodTime (mk_time 9 0 0 0))
                      (ingestion.GoodTime (mk_time 17 0 0 0))]
                   _ 1%N _ _ _)).
  - left. reflexivity.
  - intros row [<- | []] _. reflexivity.
  - reflexivity.
Defined.

(** ** Ingestion of status polls *)

Lemma poll_of_row_status (str_lower : string -> string)
    (row : ingestion.status_row) (poll : StoreStatusPoll) :
  ingestion.poll_of_row str_lower row = Some poll ->
  models.status poll = "active"%string \/ models.status poll = "inactive"%string.
Proof.
  unfold ingestion.poll_of_row. cbv zeta.
  destruct (ingestion.status_timestamp row) as [ts |]; [| discriminate].
  destruct (String.eqb_spec (str_lower (ingestion.status_cell row)) "active")
    as [Ha | Hna]; cbn [orb].
  - intros Hp. injection Hp as <-. left. exact Ha.
  - destruct (String.eqb_spec (str_lower (ingestion.status_cell row)) "inactive")
      as [Hi | Hni]; [| discriminate].
    intros Hp. injection Hp as <-. right. exact Hi.
Qed.

Lemma load_status_polls_from (str_lower : string -> string)
    (chunks : list (list ingestion.status_row))
    (added : list (uuid * StoreStatusPoll)) :
  fold_left (fun added chunk => added ++ ingestion.polls_of_chunk str_lower chunk)
    chunks added
  = added ++ ingestion.polls_of_chunk str_lower (concat chunks).
Proof.
  revert added. induction chunks as [| chunk chunks IH]; intros added;
    cbn [fold_left concat].
  - unfold ingestion.polls_of_chunk. cbn. rewrite app_nil_r. reflexivity.
  - rewrite IH. unfold ingestion.polls_of_chunk.
    rewrite omap_app, app_assoc. reflexivity.
Qed.

(** X24. After [load_status_polls] the table holds exactly the accepted
    rows of the file, in file order across the chunks, whatever it held
    before; every stored status is exactly 'active' or 'inactive', so on
    any list of stored polls [get_status_at_time] answers one of the two. *)
Theorem ingested_polls_are_active_or_inactive
    (str_lower : string -> string)
    (table : list (uuid * StoreStatusPoll))
    (chunks : list (list ingestion.status_row)) :
  ingestion.load_status_polls str_lower table chunks
  = ingestion.polls_of_chunk str_lower (concat chunks) /\
  (forall sid poll,
     In (sid, poll) (ingestion.load_status_polls str_lower table chunks) ->
     models.status poll = "active"%string \/
     models.status poll = "inactive"%string) /\
  (forall polls t,
     (forall poll, In poll polls ->
        exists sid,
          In (sid, poll) (ingestion.load_status_polls str_lower table chunks)) ->
     get_status_at_time t polls = "active"%string \/
     get_status_at_time t polls = "inactive"%string).
Proof.
  assert (Hload : ingestion.load_status_polls str_lower table chunks
                  = ingestion.polls_of_chunk str_lower (concat chunks)).
  { unfold ingestion.load_status_polls. apply load_status_polls_from. }
  assert (Hstatus : forall sid poll,
            In (sid, poll) (ingestion.load_status_polls str_lower table chunks) ->
            models.status poll = "active"%string \/
            models.status poll = "inactive"%string).
  { intros sid poll Hin. rewrite Hload in Hin.
    apply list_elem_of_In, list_elem_of_omap in Hin as (row & _ & Hrow).
    destruct (ingestion.status_store_id row) as [s |]; [| discriminate].
    cbn in Hrow.
    destruct (ingestion.poll_of_row str_lower row) as [p |] eqn:Hp;
      [| discriminate].
    cbn in Hrow. injection Hrow as _ <-.
    eapply poll_of_row_status, Hp. }
  split; [exact Hload |]. split; [exact Hstatus |].
  intros polls t Hpolls. unfold get_status_at_time.
  destruct (status_scan_cases t polls DEFAULT_STORE_STATUS)
    as [-> | (p & Hin & _ & ->)].
  - right. reflexivity.
  - destruct (Hpolls p Hin) as [sid Hsid]. eapply Hstatus, Hsid.
Qed.

(** ** The report record *)

Lemma truthy_spec (file_path : option string) :
  reports.truthy file_path = true <->
  exists p, file_path = Some p /\ p <> ""%string.
Proof.
  destruct file_path as [p |]; cbn.
  - rewrite negb_true_iff, String.eqb_neq. split.
    + intros Hne. exists p. auto.
    + intros (q & Hq & Hne). injection Hq as ->. exact Hne.
  - split; [discriminate | intros (p & Hp & _); discriminate].
Qed.

(** X25. [get_report] serves a file only for a report that exists, has
    status COMPLETE and a non-empty stored path naming an existing file,
    and then it serves that path; in every other case the answer is a
    status code without the file. *)
Theorem file_served_only_for_complete_report
    (db : gmap string reports.Report) (isfile : string -> bool)
    (report_id path : string) :
  reports.get_report db isfile report_id = reports.FileResponse path <->
  exists report,
    db !! report_id = Some report /\
    reports.report_status report = "COMPLETE"%string /\
    reports.report_file_path report = Some path /\
    path <> ""%string /\ isfile path = true.
Proof.
  unfold reports.get_report, reports.get_report_details.
  destruct (db !! report_id) as [report |]; cbv zeta.
  - destruct (String.eqb_spec (reports.report_status report) "PENDING") as [Hp | Hnp];
      cbn [orb].
    { split; [discriminate |]. intros (r & Hr & Hs & _). injection Hr as <-.
      rewrite Hs in Hp. discriminate. }
    destruct (String.eqb_spec (reports.report_status report) "RUNNING") as [Hr | Hnr].
    { split; [discriminate |]. intros (r & Hr' & Hs & _). injection Hr' as <-.
      rewrite Hs in Hr. discriminate. }
    destruct (String.eqb_spec (reports.report_status report) "FAILED") as [Hf | Hnf].
    { split; [discriminate |]. intros (r & Hr' & Hs & _). injection Hr' as <-.
      rewrite Hs in Hf. discriminate. }
    destruct (String.eqb_spec (reports.report_status report) "COMPLETE") as [Hc | Hnc].
    + destruct (reports.report_file_path report) as [p |] eqn:Hpath.
      * destruct (reports.truthy (Some p)) eqn:Htruthy; cbn [andb].
        -- apply truthy_spec in Htruthy as (q & Hq & Hne). injection Hq as <-.
           destruct (isfile p) eqn:Hfile.
           ++ split.
              ** intros H. injection H as <-. exists report. auto.
              ** intros (r & Hr' & _ & Hp' & _). injection Hr' as <-.
                 rewrite Hpath in Hp'. injection Hp' as <-. reflexivity.
           ++ split; [discriminate |].
              intros (r & Hr' & _ & Hp' & _ & Hfile'). injection Hr' as <-.
              rewrite Hpath in Hp'. injection Hp' as <-. congruence.
        -- split; [discriminate |].
           intros (r & Hr' & _ & Hp' & Hne & _). injection Hr' as <-.
           rewrite Hpath in Hp'. injection Hp' as <-.
           assert (reports.truthy (Some p) = true)
             by (apply truthy_spec; eauto).
           congruence.
      * split; [discriminate |].
        intros (r & Hr' & _ & Hp' & _). injection Hr' as <-. congruence.
    + split; [discriminate |]. intros (r & Hr' & Hs & _). injection Hr' as <-.
      contradiction.
  - split; [discriminate |]. intros (r & Hr & _). discriminate.
Qed.

(** X26. Marking an existing report COMPLETE with a non-empty path makes
    [get_report] serve that path when the file exists and answer 500 when
    it does not; the completion time is recorded, and the answer for any
    other report id is unchanged. *)
Theorem completing_a_report_serves_its_file
    (db : gmap string reports.Report) (isfile : string -> bool)
    (report_id path : string) (now : Z) (report : reports.Report)
    (Hreport : db !! report_id = Some report)
    (Hpath : path <> ""%string) :
  let db' := reports.update_report_status db report_id "COMPLETE" (Some path) now in
  reports.get_report db' isfile report_id
  = (if isfile path then reports.FileResponse path else reports.HTTPException 500) /\
  (exists report',
     db' !! report_id = Some report' /\
     reports.completed_at report' = Some now /\
     reports.report_store_id report' = reports.report_store_id report) /\
  (forall other, other <> report_id ->
     reports.get_report db' isfile other = reports.get_report db isfile other).
Proof.
  cbv zeta.
  assert (Htruthy : reports.truthy (Some path) = true)
    by (apply truthy_spec; eauto).
  split; [| split].
  - unfold reports.get_report, reports.get_report_details,
      reports.update_report_status.
    rewrite lookup_alter_eq, Hreport. cbn.
    unfold reports.truthy in Htruthy. rewrite Htruthy. cbn.
    rewrite ?Htruthy. cbn.
    destruct (isfile path); reflexivity.
  - unfold reports.update_report_status.
    rewrite lookup_alter_eq, Hreport. cbn. eexists.
    split; [reflexivity |]. split; reflexivity.
  - intros other Hne. unfold reports.get_report, reports.get_report_details,
      reports.update_report_status.
    rewrite lookup_alter_ne by congruence. reflexivity.
Qed.

Lemma completing_a_report_serves_its_file_witness :
  reports.get_report
    (reports.update_report_status
       {["r1" := reports.mkReport "r1" "RUNNING" 0 None None 1%N]}
       "r1" "COMPLETE" (Some "out.csv") 5)
    (fun _ => true) "r1"
  = reports.FileResponse "out.csv".
Proof.
  exact (proj1 (completing_a_report_serves_its_file
                  {["r1" := reports.mkReport "r1" "RUNNING" 0 None None 1%N]}
                  (fun _ => true) "r1" "out.csv" 5
                  (reports.mkReport "r1" "RUNNING" 0 None None 1%N)
                  eq_refl ltac:(discriminate))).
Defined.

(** X27. Marking an existing report FAILED makes [get_report] answer 410
    and never records a file path, even when one is passed; a COMPLETE
    update without a path leaves the stored path as it was; and an update
    of an unknown id changes nothing. *)
Theorem failing_a_report_answers_410
    (db : gmap string reports.Report) (isfile : string -> bool)
    (report_id : string) (file_path : option string) (now : Z) :
  (forall report, db !! report_id = Some report ->
     reports.get_report
       (reports.update_report_status db report_id "FAILED" file_path now)
       isfile report_id
     = reports.JSONResponse 410 "failed" /\
     exists report',
       reports.update_report_status db report_id "FAILED" file_path now !! report_id
       = Some report' /\
       reports.report_file_path report' = reports.report_file_path report /\
       reports.completed_at report' = Some now) /\
  (forall report, db !! report_id = Some report ->
     reports.truthy file_path = false ->
     exists report',
       reports.update_report_status db report_id "COMPLETE" file_path now !! report_id
       = Some report' /\
       reports.report_file_path report' = reports.report_file_path report) /\
  (db !! report_id = None ->
   forall status,
     reports.update_report_status db report_id status file_path now = db).
Proof.
  split; [| split].
  - intros report Hreport. split.
    + unfold reports.get_report, reports.get_report_details,
        reports.update_report_status.
      rewrite lookup_alter_eq, Hreport. reflexivity.
    + unfold reports.update_report_status.
      rewrite lookup_alter_eq, Hreport. cbn. eexists.
      split; [reflexivity |]. split; [| reflexivity].
      cbn. rewrite andb_false_r. reflexivity.
  - intros report Hreport Hfalsy. unfold reports.update_report_status.
    rewrite lookup_alter_eq, Hreport. cbn. eexists.
    split; [reflexivity |]. cbn. rewrite Hfalsy. reflexivity.
  - intros Hnone status. unfold reports.update_report_status.
    apply map_eq. intros i. destruct (decide (report_id = i)) as [<- | Hne].
    + rewrite lookup_alter_eq, Hnone. reflexivity.
    + rewrite lookup_alter_ne by exact Hne. reflexivity.
Qed.
